(** * HireMe AutoPilot client: session, request and draft-editing contracts

    A shallow embedding of the React client's event handlers
    (App.js, Login, Dashboard, Jobs, Applications, ResumeEditor) and the
    properties of the authenticated-request contract they follow.

    A handler is a state transformer over a [World]: the browser's
    localStorage, the App-level user, the component's own state, and the
    chronological trace of everything the handler does to the outside
    (HTTP requests, notifications, navigation, dialogs, storage writes).
    Whatever the outside answers (the HTTP reply, the confirm dialog's
    answer, the chosen file) is an argument of the handler. A handler
    runs from its event to the end of its last continuation; the
    JavaScript is single-threaded, and runs of other handlers in between
    are not considered. *)

From Stdlib Require Import ZArith Ascii.
From stdpp Require Import gmap strings list pretty.

Set Warnings "-register-all".
Open Scope Z_scope.

(** ** JavaScript values *)

Module JS.

(** A parsed JSON document, as axios hands it over in [response.data].
    Numbers are restricted to the integers that JavaScript prints in
    plain decimal. Object properties are kept in insertion order; keys
    are distinct. *)
Inductive json : Type :=
| JNull
| JBool (b : bool)
| JNum (n : Z)
| JStr (s : string)
| JArr (xs : list json)
| JObj (props : list (string * json)).

(** A JavaScript value is a [json] or [undefined] (here [None]). *)
Abbreviation value := (option json).
Abbreviation undefined := (@None json).

(** An exception raised by the language itself. *)
Inductive TypeError : Type := type_error.

(** ToBoolean: [undefined], [null], [false], [0] and [''] are falsy. *)
Definition truthy (v : value) : bool :=
  match v with
  | None => false
  | Some JNull => false
  | Some (JBool b) => b
  | Some (JNum n) => negb (n =? 0)
  | Some (JStr s) => negb (String.eqb s "")
  | Some (JArr _) => true
  | Some (JObj _) => true
  end.

(** [a || d] with a defined right operand. *)
Definition or_else (a : value) (d : json) : json :=
  match a with
  | Some j => if truthy a then j else d
  | None => d
  end.

(** [a || b] *)
Definition or_ (a b : value) : value := if truthy a then a else b.

Fixpoint assoc (k : string) (props : list (string * json)) : value :=
  match props with
  | [] => None
  | (k', v) :: rest => if String.eqb k k' then Some v else assoc k rest
  end.

(** [o.k] for the property names the handlers read (none of them is a
    built-in property of strings, numbers, booleans or arrays): a
    TypeError on [null], the own property on an object, [undefined]
    otherwise. *)
Definition get (o : json) (k : string) : TypeError + value :=
  match o with
  | JNull => inl type_error
  | JObj props => inr (assoc k props)
  | _ => inr None
  end.

(** [o?.k] *)
Definition opt_get (o : value) (k : string) : value :=
  match o with
  | None | Some JNull => None
  | Some (JObj props) => assoc k props
  | Some _ => None
  end.

(** ToString, as a template literal applies it. *)
Fixpoint to_string (j : json) : string :=
  match j with
  | JNull => "null"
  | JBool true => "true"
  | JBool false => "false"
  | JNum n => pretty n
  | JStr s => s
  | JArr xs =>
      String.concat ","
        (map (fun x => match x with JNull => "" | _ => to_string x end) xs)
  | JObj _ => "[object Object]"
  end.

Definition template (v : value) : string :=
  match v with
  | None => "undefined"
  | Some j => to_string j
  end.

(** *** JSON.stringify *)

Definition dquote : string := String "034"%char "".
Definition backslash : string := String "092"%char "".

Definition hex_digit (n : N) : string :=
  match n with
  | 0%N => "0" | 1%N => "1" | 2%N => "2" | 3%N => "3"
  | 4%N => "4" | 5%N => "5" | 6%N => "6" | 7%N => "7"
  | 8%N => "8" | 9%N => "9" | 10%N => "a" | 11%N => "b"
  | 12%N => "c" | 13%N => "d" | 14%N => "e" | _ => "f"
  end.

Definition escape_char (c : ascii) : string :=
  let n := N_of_ascii c in
  if (n =? 34)%N then backslash +:+ dquote
  else if (n =? 92)%N then backslash +:+ backslash
  else if (n =? 8)%N then backslash +:+ "b"
  else if (n =? 9)%N then backslash +:+ "t"
  else if (n =? 10)%N then backslash +:+ "n"
  else if (n =? 12)%N then backslash +:+ "f"
  else if (n =? 13)%N then backslash +:+ "r"
  else if (n <? 32)%N then
    backslash +:+ "u00" +:+ hex_digit (n / 16) +:+ hex_digit (n mod 16)
  else String c "".

Fixpoint escape (s : string) : string :=
  match s with
  | EmptyString => ""
  | String c rest => escape_char c +:+ escape rest
  end.

Definition quote (s : string) : string := dquote +:+ escape s +:+ dquote.

Fixpoint stringify (j : json) : string :=
  match j with
  | JNull => "null"
  | JBool true => "true"
  | JBool false => "false"
  | JNum n => pretty n
  | JStr s => quote s
  | JArr xs => "[" +:+ String.concat "," (map stringify xs) +:+ "]"
  | JObj props =>
      "{" +:+
      String.concat ","
        (map (fun kv => quote (fst kv) +:+ ":" +:+ stringify (snd kv)) props)
      +:+ "}"
  end.

End JS.

Import JS.

(** ** Requests, replies and observable events *)

Inductive Method : Type := GET | POST | PUT | PATCH | DELETE.

(** What the handlers read of a browser [File]. *)
Record File : Type := mkFile { file_name : string; file_type : string }.

Inductive Body : Type :=
| NoBody
| JsonBody (j : json)
| FormBody (fields : list (string * File)).

(** The arguments of one axios call. [timeout] is the [timeout] entry of
    the config in milliseconds, [None] when the config has none (axios
    then waits without bound). [headers] holds exactly the entries of the
    config's [headers] object. *)
Record Request : Type := mkRequest {
  method : Method;
  url : string;
  headers : gmap string string;
  timeout : option Z;
  body : Body
}.

(** [error.response] and the error axios rejects with. *)
Record ErrorResponse : Type := mkErrorResponse { status : Z; data : json }.
Record AxiosError : Type := mkAxiosError {
  response : option ErrorResponse;
  message : string
}.

(** How an awaited axios call settles; [A] is the type of [response.data]. *)
Inductive Reply (A : Type) : Type :=
| Fulfilled (d : A)
| Rejected (e : AxiosError).
Arguments Fulfilled {A} d.
Arguments Rejected {A} e.

(** [error.response?.data?.k] *)
Definition error_data (e : AxiosError) (k : string) : value :=
  opt_get (data <$> response e) k.

(** [error.response?.status === 401] *)
Definition is_401 (e : AxiosError) : bool :=
  match response e with
  | Some r => status r =? 401
  | None => false
  end.

Inductive ToastKind : Type := Success | Error | Loading.

Inductive Event : Type :=
| Confirm (msg : string) (answer : bool)
| Http (r : Request)
| Toast (k : ToastKind) (msg : json) (id : option string)
| Navigate (path : string)
| ConsoleError (label : string)
| SetItem (key val : string)
| RemoveItem (key : string)
| PreventDefault
| ResetInput.

(** ** The world a handler runs in *)

Record World (S : Type) : Type := mkWorld {
  storage : gmap string string;   (* window.localStorage *)
  user : json;                    (* App's [user] state, [null] at start *)
  view : S;                       (* the mounted component's state *)
  trace : list Event              (* oldest event first *)
}.
Arguments mkWorld {S} _ _ _ _.
Arguments storage {S} _.
Arguments user {S} _.
Arguments view {S} _.
Arguments trace {S} _.

Definition M (S A : Type) : Type := World S -> A * World S.

#[global] Instance M_ret {S} : MRet (M S) := fun A a w => (a, w).
#[global] Instance M_bind {S} : MBind (M S) :=
  fun A B f m w => let (a, w') := m w in f a w'.

(** Run a handler for its effect on the world. *)
Definition exec {S A} (m : M S A) (w : World S) : World S := snd (m w).

Section Primitives.
Context {S : Type}.

Definition emit (e : Event) : M S unit :=
  fun w => (tt, mkWorld (storage w) (user w) (view w) (trace w ++ [e])).

Definition getItem (k : string) : M S (option string) :=
  fun w => (storage w !! k, w).

Definition setItem (k v : string) : M S unit :=
  fun w => (tt, mkWorld (<[k := v]> (storage w)) (user w) (view w)
                        (trace w ++ [SetItem k v])).

Definition removeItem (k : string) : M S unit :=
  fun w => (tt, mkWorld (delete k (storage w)) (user w) (view w)
                        (trace w ++ [RemoveItem k])).

Definition setUser (u : json) : M S unit :=
  fun w => (tt, mkWorld (storage w) u (view w) (trace w)).

Definition get_view : M S S := fun w => (view w, w).

Definition set_view (f : S -> S) : M S unit :=
  fun w => (tt, mkWorld (storage w) (user w) (f (view w)) (trace w)).

(** [await axios(...)]: the request goes out, the reply comes back. *)
Definition axios {A} (r : Request) (reply : Reply A) : M S (Reply A) :=
  emit (Http r);; mret reply.

Definition toast (k : ToastKind) (msg : json) : M S unit :=
  emit (Toast k msg None).

Definition toast_id (k : ToastKind) (msg : json) (id : string) : M S unit :=
  emit (Toast k msg (Some id)).

Definition navigate (path : string) : M S unit := emit (Navigate path).

Definition console_error (label : string) : M S unit :=
  emit (ConsoleError label).

End Primitives.

(** [`Bearer ${token}`], with [token] as [localStorage.getItem] gave it. *)
Definition bearer (token : option string) : string :=
  "Bearer " +:+ default "null" token.

(** [{ Authorization: `Bearer ${token}` }] *)
Definition auth_headers (token : option string) : gmap string string :=
  {[ "Authorization" := bearer token ]}.

(** The requests a trace contains. *)
Definition requests (t : list Event) : list Request :=
  omap (fun e => match e with Http r => Some r | _ => None end) t.

(** ** App.js *)

Module App.

Definition API : string := "http://127.0.0.1:5000/api".

Definition login {S} (token userData : json) : M S unit :=
  setItem "token" (to_string token);;
  setItem "user" (stringify userData);;
  setUser userData.

Definition logout {S} : M S unit :=
  removeItem "token";;
  removeItem "user";;
  setUser JNull.

Inductive Rendered : Type := Children | Redirect (to : string).

(** [token ? children : <Navigate to="/login" />] *)
Definition ProtectedRoute (st : gmap string string) : Rendered :=
  match st !! "token" with
  | Some t => if negb (String.eqb t "") then Children else Redirect "/login"
  | None => Redirect "/login"
  end.

End App.

(** ** Status badges (shared by Dashboard and Applications) *)

Inductive Icon : Type := Clock | TrendingUp | XCircle | CheckCircle2.

(** [s.replace(pat, rep)] with string arguments: the first occurrence. *)
Fixpoint replace_first (pat rep s : string) : string :=
  if String.prefix pat s
  then rep +:+ String.substring (String.length pat) (String.length s) s
  else match s with
       | EmptyString => EmptyString
       | String c rest => String c (replace_first pat rep rest)
       end.

(** *** Object literals used as lookup tables

    An object literal has the properties it is written with, its own,
    and inherits those of [Object.prototype]. *)

(** The property names of [Object.prototype] as ECMAScript defines
    them. Each holds a function, except [__proto__], an accessor that
    gives the prototype object; none of these values is a string, and
    none has a [replace] method. *)
Definition Object_prototype : list string := [
  "constructor"; "hasOwnProperty"; "isPrototypeOf"; "propertyIsEnumerable";
  "toLocaleString"; "toString"; "valueOf"; "__proto__";
  "__defineGetter__"; "__defineSetter__"; "__lookupGetter__"; "__lookupSetter__"
].

Record Literal (A : Type) : Type := literal { own : gmap string A }.
Arguments literal {A} _.
Arguments own {A} _.

(** What [o[key]] gives: the value of an own property, the member of
    [Object.prototype] of that name, or [undefined]. *)
Inductive Member (A : Type) : Type :=
| Own (v : A)
| Inherited (name : string)
| Missing.
Arguments Own {A} _.
Arguments Inherited {A} _.
Arguments Missing {A}.

(** [o[key]] for a string [key]: own properties first, then the
    prototype. *)
Definition prop {A} (o : Literal A) (key : string) : Member A :=
  match own o !! key with
  | Some v => Own v
  | None => if bool_decide (key ∈ Object_prototype) then Inherited key else Missing
  end.

(** What a rendered status badge shows; [label] is the child of the
    label span. *)
Record Badge : Type := mkBadge {
  container_class : string;
  icon_class : string;
  icon : Member Icon;
  label_class : string;
  label : value
}.

(** ** pages/Dashboard.js *)

Module Dashboard.

Record State : Type := mkState {
  stats : json;
  resume : json;
  uploading : bool;
  recentApplications : json
}.

Definition initial : State := mkState JNull JNull false (JArr []).

Definition setStats (v : json) : M State unit :=
  set_view (fun s => mkState v (resume s) (uploading s) (recentApplications s)).
Definition setResume (v : json) : M State unit :=
  set_view (fun s => mkState (stats s) v (uploading s) (recentApplications s)).
Definition setUploading (b : bool) : M State unit :=
  set_view (fun s => mkState (stats s) (resume s) b (recentApplications s)).
Definition setRecentApplications (v : json) : M State unit :=
  set_view (fun s => mkState (stats s) (resume s) (uploading s) v).

(** [data.slice(0, 5)]: arrays and strings have [slice]; on anything else
    the call raises a TypeError. *)
Definition slice_0_5 (d : json) : TypeError + json :=
  match d with
  | JArr xs => inr (JArr (take 5 xs))
  | JStr s => inr (JStr (String.substring 0 5 s))
  | _ => inl type_error
  end.

(** The three requests of [Promise.all] go out in order; the [try] body
    continues only when all three are fulfilled. *)
Definition fetchData (rStats rResume rApps : Reply json) : M State unit :=
  token ← getItem "token";
  let headers := auth_headers token in
  statsRes ← axios (mkRequest GET (App.API +:+ "/stats") headers None NoBody) rStats;
  resumeRes ← axios (mkRequest GET (App.API +:+ "/resume") headers None NoBody) rResume;
  appsRes ← axios (mkRequest GET (App.API +:+ "/applications") headers None NoBody) rApps;
  match statsRes, resumeRes, appsRes with
  | Fulfilled s, Fulfilled r, Fulfilled a =>
      setStats s;;
      setResume r;;
      match slice_0_5 a with
      | inr recent => setRecentApplications recent
      | inl _ => console_error "Error fetching data:"
      end
  | _, _, _ => console_error "Error fetching data:"
  end.

(** [files] is [e.target.files]. The call [fetchData()] is not awaited;
    its requests leave before the [finally] block runs, and the state
    fields it sets are disjoint from [uploading]. *)
Definition handleFileUpload (files : list File) (rUpload : Reply json)
    (rStats rResume rApps : Reply json) : M State unit :=
  match head files with
  | None => mret tt
  | Some file =>
      setUploading true;;
      token ← getItem "token";
      res ← axios (mkRequest POST (App.API +:+ "/resume/upload")
                     (<["Content-Type" := "multipart/form-data"]>
                        (auth_headers token))
                     None
                     (FormBody [("file", file)])) rUpload;
      match res with
      | Fulfilled _ =>
          toast Success (JStr "Resume uploaded and parsed successfully!");;
          fetchData rStats rResume rApps
      | Rejected error =>
          toast Error (or_else (error_data error "detail") (JStr "Upload failed"))
      end;;
      setUploading false
  end.

(** The lookup tables are object literals indexed by [app.status]. *)
Definition statusColors : Literal string :=
  literal (list_to_map [
    ("applied", "bg-blue-500");
    ("interview", "bg-purple-500");
    ("rejected", "bg-red-500");
    ("accepted", "bg-green-500");
    ("pending", "bg-yellow-500")
  ]).

Definition statusIcons : Literal Icon :=
  literal (list_to_map [
    ("applied", Clock);
    ("interview", TrendingUp);
    ("rejected", XCircle);
    ("accepted", CheckCircle2);
    ("pending", Clock)
  ]).

(** The badge of one recent application; [app_status] is [app.status],
    any value. Indexing converts it to a property key, its string
    conversion. The container's class name interpolates the looked-up
    value, which raises nothing; the two spans call [.replace] on it:
    that is the string method on an own colour, and raises a TypeError
    on an inherited member, which has no [replace], and on [undefined].
    The label span has [app.status] itself as its child. *)
Definition badge (app_status : value) : TypeError + Badge :=
  let key := template app_status in
  match prop statusColors key with
  | Own c =>
      inr (mkBadge
             ("flex items-center gap-1 px-3 py-1 rounded-full "
                +:+ c +:+ " bg-opacity-10")
             (replace_first "bg-" "text-" c)
             (prop statusIcons key)
             ("text-xs font-medium " +:+ replace_first "bg-" "text-" c)
             app_status)
  | Inherited _ => inl type_error
  | Missing => inl type_error
  end.

End Dashboard.

(** ** pages/Jobs.js *)

Module Jobs.

Record JobForm : Type := mkJobForm {
  title : string;
  company : string;
  description : string;
  requirements : string;
  location : string;
  url : string
}.

Definition emptyForm : JobForm := mkJobForm "" "" "" "" "" "".

Definition form_json (f : JobForm) : json :=
  JObj [("title", JStr (title f)); ("company", JStr (company f));
        ("description", JStr (description f));
        ("requirements", JStr (requirements f));
        ("location", JStr (location f)); ("url", JStr (url f))].

Record State : Type := mkState {
  jobs : json;
  loading : bool;
  dialogOpen : bool;
  applying : json;
  formData : JobForm
}.

Definition initial : State := mkState (JArr []) false false JNull emptyForm.

Definition setJobs (v : json) : M State unit :=
  set_view (fun s => mkState v (loading s) (dialogOpen s) (applying s) (formData s)).
Definition setLoading (b : bool) : M State unit :=
  set_view (fun s => mkState (jobs s) b (dialogOpen s) (applying s) (formData s)).
Definition setDialogOpen (b : bool) : M State unit :=
  set_view (fun s => mkState (jobs s) (loading s) b (applying s) (formData s)).
Definition setApplying (v : json) : M State unit :=
  set_view (fun s => mkState (jobs s) (loading s) (dialogOpen s) v (formData s)).
Definition setFormData (f : JobForm) : M State unit :=
  set_view (fun s => mkState (jobs s) (loading s) (dialogOpen s) (applying s) f).

Definition fetchJobs (rJobs : Reply json) : M State unit :=
  token ← getItem "token";
  res ← axios (mkRequest GET (App.API +:+ "/jobs") (auth_headers token) None NoBody) rJobs;
  match res with
  | Fulfilled d => setJobs d
  | Rejected _ => toast Error (JStr "Failed to fetch jobs")
  end.

Definition handleSubmit (rCreate rJobs : Reply json) : M State unit :=
  emit PreventDefault;;
  setLoading true;;
  token ← getItem "token";
  s ← get_view;
  res ← axios (mkRequest POST (App.API +:+ "/jobs") (auth_headers token) None
                 (JsonBody (form_json (formData s)))) rCreate;
  match res with
  | Fulfilled _ =>
      toast Success (JStr "Job added successfully!");;
      setDialogOpen false;;
      setFormData emptyForm;;
      fetchJobs rJobs
  | Rejected error =>
      toast Error (or_else (error_data error "detail") (JStr "Failed to add job"))
  end;;
  setLoading false.

(** [answer] is what [window.confirm] returns. *)
Definition handleDelete (jobId : json) (answer : bool)
    (rDelete rJobs : Reply json) : M State unit :=
  emit (Confirm "Are you sure you want to delete this job?" answer);;
  if negb answer then mret tt
  else
    token ← getItem "token";
    res ← axios (mkRequest DELETE (App.API +:+ "/jobs/" +:+ to_string jobId)
                   (auth_headers token) None NoBody) rDelete;
    match res with
    | Fulfilled _ =>
        toast Success (JStr "Job deleted");;
        fetchJobs rJobs
    | Rejected _ => toast Error (JStr "Failed to delete job")
    end.

Definition handleApply (jobId : json) (rApply : Reply json) : M State unit :=
  setApplying jobId;;
  toast_id Loading (JStr "Generating tailored resume and cover letter with AI...") "applying";;
  token ← getItem "token";
  res ← axios (mkRequest POST (App.API +:+ "/applications/" +:+ to_string jobId)
                 (auth_headers token) (Some 120000) (JsonBody (JObj []))) rApply;
  match res with
  | Fulfilled _ =>
      toast_id Success
        (JStr "Application created! Tailored resume and cover letter generated.")
        "applying";;
      navigate "/applications"
  | Rejected error =>
      toast_id Error (or_else (error_data error "detail") (JStr "Failed to apply"))
        "applying"
  end;;
  setApplying JNull.

End Jobs.

(** ** pages/Applications.js *)

Module Applications.

Record State : Type := mkState {
  applications : json;
  filter : string
}.

Definition initial : State := mkState (JArr []) "all".

Definition setApplications (v : json) : M State unit :=
  set_view (fun s => mkState v (filter s)).

Definition fetchApplications (rApps : Reply json) : M State unit :=
  token ← getItem "token";
  res ← axios (mkRequest GET (App.API +:+ "/applications") (auth_headers token)
                 None NoBody) rApps;
  match res with
  | Fulfilled d => setApplications d
  | Rejected _ => toast Error (JStr "Failed to fetch applications")
  end.

Definition handleStatusUpdate (appId : json) (newStatus : string)
    (rPatch rApps : Reply json) : M State unit :=
  token ← getItem "token";
  res ← axios (mkRequest PATCH
                 (App.API +:+ "/applications/" +:+ to_string appId +:+ "/status")
                 (auth_headers token) None
                 (JsonBody (JObj [("status", JStr newStatus)]))) rPatch;
  match res with
  | Fulfilled _ =>
      toast Success (JStr "Status updated");;
      fetchApplications rApps
  | Rejected _ => toast Error (JStr "Failed to update status")
  end.

Definition statusColors : Literal string :=
  literal (list_to_map [
    ("applied", "bg-blue-500");
    ("interview", "bg-purple-500");
    ("rejected", "bg-red-500");
    ("accepted", "bg-green-500");
    ("pending", "bg-yellow-500")
  ]).

Definition statusIcons : Literal Icon :=
  literal (list_to_map [
    ("applied", Clock);
    ("interview", TrendingUp);
    ("rejected", XCircle);
    ("accepted", CheckCircle2);
    ("pending", Clock)
  ]).

(** [c.toUpperCase()] for one character, on the ASCII letters. *)
Definition upper (c : ascii) : ascii :=
  let n := nat_of_ascii c in
  if ((97 <=? n) && (n <=? 122))%nat then ascii_of_nat (n - 32) else c.

(** [s.charAt(0).toUpperCase() + s.slice(1)] on a string. *)
Definition capitalize (s : string) : string :=
  match s with
  | EmptyString => EmptyString
  | String c rest => String (upper c) rest
  end.

(** The badge of one application card; [app_status] is [app.status],
    any value, converted to a property key by indexing. As in the
    Dashboard, the spans call [.replace] on the looked-up value. The
    label calls [app.status.charAt], which only a string has: on any
    other value the call raises a TypeError. *)
Definition badge (app_status : value) : TypeError + Badge :=
  let key := template app_status in
  match prop statusColors key with
  | Own c =>
      match app_status with
      | Some (JStr s) =>
          inr (mkBadge
                 ("flex items-center gap-2 px-4 py-2 rounded-full "
                    +:+ c +:+ " bg-opacity-10")
                 (replace_first "bg-" "text-" c)
                 (prop statusIcons key)
                 ("font-medium " +:+ replace_first "bg-" "text-" c)
                 (Some (JStr (capitalize s))))
      | _ => inl type_error
      end
  | Inherited _ => inl type_error
  | Missing => inl type_error
  end.

End Applications.

(** ** pages/ApplicationDetail.js *)

Module ApplicationDetail.

Definition fetchApplication (id : string) (rApp : Reply json) : M json unit :=
  token ← getItem "token";
  res ← axios (mkRequest GET (App.API +:+ "/applications/" +:+ id)
                 (auth_headers token) None NoBody) rApp;
  match res with
  | Fulfilled d => set_view (fun _ => d)
  | Rejected _ =>
      toast Error (JStr "Failed to fetch application details");;
      navigate "/applications"
  end.

End ApplicationDetail.

(** ** pages/Login.js *)

Module Login.

Record Credentials : Type := mkCredentials { email : string; password : string }.
Record Registration : Type := mkRegistration {
  reg_email : string;
  reg_password : string;
  full_name : string
}.

Record State : Type := mkState {
  loading : bool;
  loginData : Credentials;
  registerData : Registration
}.

Definition setLoading (b : bool) : M State unit :=
  set_view (fun s => mkState b (loginData s) (registerData s)).

Definition BACKEND_URL : string := "http://127.0.0.1:5000".

(** In both handlers the arguments of
    [login(response.data.access_token || 'dummy-token',
           response.data.user || {})]
    are evaluated first; reading a property of a [null] body raises a
    TypeError, which the [catch] block receives as an error without a
    [response]. *)
Definition handleLogin (rLogin : Reply json) : M State unit :=
  emit PreventDefault;;
  setLoading true;;
  s ← get_view;
  res ← axios (mkRequest POST (BACKEND_URL +:+ "/api/login") ∅ None
                 (JsonBody (JObj [("email", JStr (email (loginData s)));
                                  ("password", JStr (password (loginData s)))])))
          rLogin;
  match res with
  | Fulfilled d =>
      match get d "access_token", get d "user" with
      | inr access_token, inr usr =>
          App.login (or_else access_token (JStr "dummy-token"))
                    (or_else usr (JObj []));;
          toast Success (JStr "Welcome back!");;
          navigate "/"
      | _, _ => console_error "";; toast Error (JStr "Login failed")
      end
  | Rejected error =>
      console_error "";;
      toast Error (or_else (error_data error "message") (JStr "Login failed"))
  end;;
  setLoading false.

Definition handleRegister (rRegister : Reply json) : M State unit :=
  emit PreventDefault;;
  setLoading true;;
  s ← get_view;
  res ← axios (mkRequest POST (BACKEND_URL +:+ "/api/register") ∅ None
                 (JsonBody (JObj [("name", JStr (full_name (registerData s)));
                                  ("email", JStr (reg_email (registerData s)));
                                  ("password", JStr (reg_password (registerData s)))])))
          rRegister;
  match res with
  | Fulfilled d =>
      match get d "access_token", get d "user" with
      | inr access_token, inr usr =>
          App.login (or_else access_token (JStr "dummy-token"))
                    (or_else usr (JObj []));;
          toast Success (JStr "Account created successfully!");;
          navigate "/"
      | _, _ => console_error "";; toast Error (JStr "Registration failed")
      end
  | Rejected error =>
      console_error "";;
      toast Error (or_else (error_data error "message") (JStr "Registration failed"))
  end;;
  setLoading false.

End Login.

(** ** pages/ResumeEditor.js *)

Module ResumeEditor.

(** The résumé has the shape of the data model. An experience or
    education entry is a mutable object with string-valued properties;
    the component's arrays hold references to such objects, so entries
    live in a heap and are shared by every array that holds their
    reference. Arrays themselves are values here: the only array the
    component ever writes to is the copy it has just made. *)
Abbreviation loc := nat.
Abbreviation entry := (gmap string string).
Abbreviation heap := (list entry).

(** [parsed_data]; a field is [None] when absent. [E] is [entry] in a
    reply and [loc] once the reply's objects are in memory. *)
Record ParsedData (E : Type) : Type := mkParsedData {
  pd_name : option string;
  pd_email : option string;
  pd_phone : option string;
  pd_summary : option string;
  pd_skills : option (list string);
  pd_experience : option (list E);
  pd_education : option (list E);
  pd_keywords : option (list string)
}.
Arguments mkParsedData {E} _ _ _ _ _ _ _ _.
Arguments pd_name {E} _.
Arguments pd_email {E} _.
Arguments pd_phone {E} _.
Arguments pd_summary {E} _.
Arguments pd_skills {E} _.
Arguments pd_experience {E} _.
Arguments pd_education {E} _.
Arguments pd_keywords {E} _.

Record Resume (E : Type) : Type := mkResume {
  id : value;
  parsed_data : option (ParsedData E)
}.
Arguments mkResume {E} _ _.
Arguments id {E} _.
Arguments parsed_data {E} _.

(** One slot of the skills array: a string, [undefined], or a hole left
    by a write past the end. *)
Inductive slot : Type := Hole | Undefined | Val (s : string).

Record EditData : Type := mkEditData {
  name : string;
  email : string;
  phone : string;
  summary : string;
  skills : list slot;
  experience : list loc;
  education : list loc;
  keywords : list string
}.

Record State : Type := mkState {
  objects : heap;
  resume : option (Resume loc);
  editing : bool;
  saving : bool;
  uploading : bool;
  editData : EditData
}.

Definition initial : State :=
  mkState [] None false false false (mkEditData "" "" "" "" [] [] [] []).

Definition setObjects (h : heap) (s : State) : State :=
  mkState h (resume s) (editing s) (saving s) (uploading s) (editData s).
Definition setResume (r : option (Resume loc)) (s : State) : State :=
  mkState (objects s) r (editing s) (saving s) (uploading s) (editData s).
Definition setEditing (b : bool) (s : State) : State :=
  mkState (objects s) (resume s) b (saving s) (uploading s) (editData s).
Definition setSaving (b : bool) (s : State) : State :=
  mkState (objects s) (resume s) (editing s) b (uploading s) (editData s).
Definition setUploading (b : bool) (s : State) : State :=
  mkState (objects s) (resume s) (editing s) (saving s) b (editData s).
Definition setEditData (d : EditData) (s : State) : State :=
  mkState (objects s) (resume s) (editing s) (saving s) (uploading s) d.

(** Parsing a reply creates its entry objects: they get fresh
    references at the end of the heap. *)
Definition alloc (es : list entry) (h : heap) : list loc * heap :=
  (seq (length h) (length es), h ++ es).

Definition alloc_opt (es : option (list entry)) (h : heap)
    : option (list loc) * heap :=
  match es with
  | None => (None, h)
  | Some l => let (ls, h') := alloc l h in (Some ls, h')
  end.

Definition load_parsed (p : ParsedData entry) (h : heap)
    : ParsedData loc * heap :=
  let (ex, h1) := alloc_opt (pd_experience p) h in
  let (ed, h2) := alloc_opt (pd_education p) h1 in
  (mkParsedData (pd_name p) (pd_email p) (pd_phone p) (pd_summary p)
     (pd_skills p) ex ed (pd_keywords p), h2).

Definition load (r : Resume entry) (h : heap) : Resume loc * heap :=
  match parsed_data r with
  | None => (mkResume (id r) None, h)
  | Some p => let (p', h') := load_parsed p h in (mkResume (id r) (Some p'), h')
  end.

(** [response.data.parsed_data || {}], then each field with its default. *)
Definition draft_of (r : Resume loc) : EditData :=
  let parsed := default (mkParsedData None None None None None None None None)
                        (parsed_data r) in
  mkEditData (default "" (pd_name parsed))
             (default "" (pd_email parsed))
             (default "" (pd_phone parsed))
             (default "" (pd_summary parsed))
             (Val <$> default [] (pd_skills parsed))
             (default [] (pd_experience parsed))
             (default [] (pd_education parsed))
             (default [] (pd_keywords parsed)).

(** [!token] *)
Definition no_token (token : option string) : bool :=
  match token with
  | None => true
  | Some t => String.eqb t ""
  end.

(** [fetchResume] up to its [await]: the request goes out unless there
    is no token. The reply's [data] is [None] when it is falsy (no
    résumé yet). *)
Definition fetchResume_send (rResume : Reply (option (Resume entry)))
    : M State (option (Reply (option (Resume entry)))) :=
  token ← getItem "token";
  if no_token token then
    toast Error (JStr "Please log in to continue");;
    navigate "/login";;
    mret None
  else
    res ← axios (mkRequest GET (App.API +:+ "/api/resume") (auth_headers token)
                   None NoBody) rResume;
    mret (Some res).

(** [fetchResume] from the moment the awaited request settles. *)
Definition fetchResume_settle (pending : option (Reply (option (Resume entry))))
    : M State unit :=
  match pending with
  | None => mret tt
  | Some (Fulfilled (Some d)) =>
      s ← get_view;
      let (r, h) := load d (objects s) in
      set_view (setObjects h);;
      set_view (setResume (Some r));;
      set_view (setEditData (draft_of r))
  | Some (Fulfilled None) => mret tt
  | Some (Rejected error) =>
      console_error "Error fetching resume:";;
      if is_401 error then
        toast Error (JStr "Session expired. Please log in again.");;
        navigate "/login"
      else mret tt
  end.

Definition fetchResume (rResume : Reply (option (Resume entry))) : M State unit :=
  pending ← fetchResume_send rResume;
  fetchResume_settle pending.

Definition allowedTypes : list string := [
  "application/pdf";
  "text/plain";
  "application/msword";
  "application/vnd.openxmlformats-officedocument.wordprocessingml.document"
].

(** [error.response?.data?.detail || error.response?.data?.error ||
     error.message || 'Upload failed. Please try again.'] *)
Definition upload_error_msg (error : AxiosError) : json :=
  or_else (or_ (or_ (error_data error "detail") (error_data error "error"))
               (Some (JStr (message error))))
          (JStr "Upload failed. Please try again.").

(** [files] is [e.target.files], empty when it is missing. The call
    [fetchResume()] is not awaited: the [finally] block runs once its
    request is out, before its reply is handled. *)
Definition handleFileUpload (files : list File) (rUpload : Reply json)
    (rResume : Reply (option (Resume entry))) : M State unit :=
  match head files with
  | None => mret tt
  | Some file =>
      if negb (bool_decide (file_type file ∈ allowedTypes)) then
        toast Error (JStr "Only PDF, DOC, DOCX, or TXT files are allowed.")
      else
        set_view (setUploading true);;
        token ← getItem "token";
        if no_token token then
          toast Error (JStr "Authentication required");;
          navigate "/login"
        else
          res ← axios (mkRequest POST (App.API +:+ "/api/resume/upload")
                         (auth_headers token) (Some 30000)
                         (FormBody [("file", file)])) rUpload;
          match res with
          | Fulfilled _ =>
              toast Success (JStr "Resume uploaded and parsed successfully!");;
              pending ← fetchResume_send rResume;
              set_view (setUploading false);;
              emit ResetInput;;
              fetchResume_settle pending
          | Rejected error =>
              toast Error (upload_error_msg error);;
              set_view (setUploading false);;
              emit ResetInput
          end
  end.

Definition slot_json (x : slot) : json :=
  match x with
  | Val s => JStr s
  | _ => JNull
  end.

(** An entry as JSON.stringify writes it (property order is not kept). *)
Definition entry_json (h : heap) (l : loc) : json :=
  match h !! l with
  | Some e => JObj ((fun kv : string * string => (kv.1, JStr kv.2)) <$> map_to_list e)
  | None => JNull
  end.

(** The draft as axios serialises it into the body of a request. *)
Definition editData_json (h : heap) (d : EditData) : json :=
  JObj [("name", JStr (name d)); ("email", JStr (email d));
        ("phone", JStr (phone d)); ("summary", JStr (summary d));
        ("skills", JArr (slot_json <$> skills d));
        ("experience", JArr (entry_json h <$> experience d));
        ("education", JArr (entry_json h <$> education d));
        ("keywords", JArr (JStr <$> keywords d))].

Definition handleSave (rSave : Reply json)
    (rResume : Reply (option (Resume entry))) : M State unit :=
  s ← get_view;
  match resume s with
  | None => mret tt
  | Some r =>
      set_view (setSaving true);;
      token ← getItem "token";
      res ← axios (mkRequest PUT (App.API +:+ "/api/resume/" +:+ template (id r))
                     (auth_headers token) None
                     (JsonBody (editData_json (objects s) (editData s)))) rSave;
      match res with
      | Fulfilled _ =>
          toast Success (JStr "Resume updated successfully!");;
          set_view (setEditing false);;
          fetchResume rResume
      | Rejected error =>
          toast Error (or_else (error_data error "detail")
                               (JStr "Failed to save resume"))
      end;;
      set_view (setSaving false)
  end.

(** *** Draft helpers

    Each helper reads [editData] and hands a new object to
    [setEditData]; [updateExperience] and [updateEducation] also assign
    to a property of an entry object. *)

Definition with_skills (d : EditData) (v : list slot) : EditData :=
  mkEditData (name d) (email d) (phone d) (summary d) v
             (experience d) (education d) (keywords d).
Definition with_experience (d : EditData) (v : list loc) : EditData :=
  mkEditData (name d) (email d) (phone d) (summary d) (skills d)
             v (education d) (keywords d).
Definition with_education (d : EditData) (v : list loc) : EditData :=
  mkEditData (name d) (email d) (phone d) (summary d) (skills d)
             (experience d) v (keywords d).

(** [[...xs]]: the iterator yields [undefined] for a hole. *)
Definition spread (xs : list slot) : list slot :=
  (fun x => match x with Hole => Undefined | _ => x end) <$> xs.

(** [xs[i] = v] on an array: past the end the array grows, and the
    slots in between are holes. *)
Definition array_set (xs : list slot) (i : nat) (v : string) : list slot :=
  if decide (i < length xs)%nat then <[i := Val v]> xs
  else xs ++ replicate (i - length xs) Hole ++ [Val v].

(** [xs.filter((_, i) => i !== index)] on an array without holes. *)
Definition remove_at {A} (index : nat) (xs : list A) : list A :=
  (imap (fun i x => if decide (i = index) then None else Some x) xs) ≫= option_list.

(** The same on the skills array: [filter] does not visit holes, so the
    result has none. *)
Definition remove_slot (index : nat) (xs : list slot) : list slot :=
  List.filter (fun x => match x with Hole => false | _ => true end)
    (imap (fun i x => if decide (i = index) then Hole else x) xs).

(** [o[field] = value] on the object at [l]. *)
Definition assign (l : loc) (field value : string) (h : heap) : heap :=
  alter (<[field := value]>) l h.

Definition addSkill (s : State) : State :=
  setEditData (with_skills (editData s)
                 (spread (skills (editData s)) ++ [Val ""])) s.

(** [newSkills] is a new array; the assignment writes to it alone. *)
Definition updateSkill (index : nat) (value : string) (s : State) : State :=
  let newSkills := array_set (spread (skills (editData s))) index value in
  setEditData (with_skills (editData s) newSkills) s.

Definition removeSkill (index : nat) (s : State) : State :=
  setEditData (with_skills (editData s)
                 (remove_slot index (skills (editData s)))) s.

(** A new entry object is created for the literal. *)
Definition addExperience (s : State) : State :=
  let l := length (objects s) in
  let e : entry := list_to_map [("title", ""); ("company", "");
                                ("duration", ""); ("description", "")] in
  setEditData (with_experience (editData s) (experience (editData s) ++ [l]))
    (setObjects (objects s ++ [e]) s).

(** [newExp[index][field] = value]: [newExp] is a new array holding the
    same references; the assignment writes to the object the reference
    points to, and raises a TypeError when [newExp[index]] is
    [undefined]. *)
Definition updateExperience (index : nat) (field value : string) (s : State)
    : TypeError + State :=
  let newExp := experience (editData s) in
  match newExp !! index with
  | None => inl type_error
  | Some l =>
      inr (setEditData (with_experience (editData s) newExp)
             (setObjects (assign l field value (objects s)) s))
  end.

Definition removeExperience (index : nat) (s : State) : State :=
  setEditData (with_experience (editData s)
                 (remove_at index (experience (editData s)))) s.

Definition addEducation (s : State) : State :=
  let l := length (objects s) in
  let e : entry := list_to_map [("degree", ""); ("institution", ""); ("year", "")] in
  setEditData (with_education (editData s) (education (editData s) ++ [l]))
    (setObjects (objects s ++ [e]) s).

Definition updateEducation (index : nat) (field value : string) (s : State)
    : TypeError + State :=
  let newEdu := education (editData s) in
  match newEdu !! index with
  | None => inl type_error
  | Some l =>
      inr (setEditData (with_education (editData s) newEdu)
             (setObjects (assign l field value (objects s)) s))
  end.

Definition removeEducation (index : nat) (s : State) : State :=
  setEditData (with_education (editData s)
                 (remove_at index (education (editData s)))) s.

(** What the draft [d] denotes in heap [h]: its fields with every entry
    reference replaced by the object it points to. *)
Record DraftValue : Type := mkDraftValue {
  v_name : string;
  v_email : string;
  v_phone : string;
  v_summary : string;
  v_skills : list slot;
  v_experience : list (option entry);
  v_education : list (option entry);
  v_keywords : list string
}.

Definition draft_value (h : heap) (d : EditData) : DraftValue :=
  mkDraftValue (name d) (email d) (phone d) (summary d) (skills d)
               ((fun l => h !! l) <$> experience d)
               ((fun l => h !! l) <$> education d)
               (keywords d).

End ResumeEditor.

(** ** App.js: restoring the session and the login route *)

Module AppShell.

(** What [JSON.parse] raises on text that is not JSON. *)
Inductive SyntaxError : Type := syntax_error.

(** [!!s] for what [localStorage.getItem] returns. *)
Definition present (s : option string) : bool :=
  match s with
  | None => false
  | Some t => negb (String.eqb t "")
  end.

(** The mount effect of [App]. The component state is [loading]; the
    parser is the platform's [JSON.parse]. An exception of the parser
    leaves the effect, so [setLoading(false)] is not reached. *)
Definition restore (JSON_parse : string -> SyntaxError + json)
    : M bool (SyntaxError + unit) :=
  token ← getItem "token";
  userData ← getItem "user";
  if present token && present userData then
    match JSON_parse (default "" userData) with
    | inr u =>
        setUser u;;
        set_view (fun _ => false);;
        mret (inr tt)
    | inl e => mret (inl e)
    end
  else
    set_view (fun _ => false);;
    mret (inr tt).

Inductive Element : Type := LoginPage | NavigateTo (to : string).

(** The element of the [/login] route:
    [user ? <Navigate to="/" /> : <Login />]. *)
Definition login_route (u : json) : Element :=
  if truthy (Some u) then NavigateTo "/" else LoginPage.

End AppShell.

(** ** components/Layout.js *)

Module Layout.

Definition handleLogout {S} : M S unit :=
  App.logout;;
  navigate "/login".

Record NavItem : Type := mkNavItem { path : string; label : string }.

Definition navItems : list NavItem := [
  mkNavItem "/" "Dashboard";
  mkNavItem "/jobs" "Jobs";
  mkNavItem "/applications" "Applications"
].

(** One rendered navigation button; [target] is where its click
    navigates to. *)
Record NavButton : Type := mkNavButton {
  target : string;
  text : string;
  variant : string;
  className : string
}.

(** [NavLinks], for the current [location.pathname]. *)
Definition NavLinks (pathname : string) : list NavButton :=
  (fun item =>
     let isActive := String.eqb pathname (path item) in
     mkNavButton (path item) (label item)
       (if isActive then "default" else "ghost")
       ("w-full justify-start " +:+
        (if isActive then "bg-indigo-600 text-white hover:bg-indigo-700"
         else "hover:bg-gray-100"))) <$> navItems.

End Layout.

(** ** pages/Dashboard.js: what the cards compute *)

Module DashboardView.

(** ToNumber on the values that are not turned into strings by [+]. *)
Definition to_number (j : json) : option Z :=
  match j with
  | JNull => Some 0
  | JBool b => Some (if b then 1 else 0)
  | JNum n => Some n
  | _ => None
  end.

(** [a + b]: a sum when neither operand is a string, an array or an
    object, the concatenation of the two ToString results otherwise. *)
Definition plus (a b : json) : json :=
  match to_number a, to_number b with
  | Some x, Some y => JNum (x + y)
  | _, _ => JStr (to_string a +:+ to_string b)
  end.

(** [stats.by_status?.k || 0], for the truthy [stats] the card is
    rendered for. *)
Definition by_status (stats : json) (k : string) : json :=
  or_else (opt_get (opt_get (Some stats) "by_status") k) (JNum 0).

Definition accepted (stats : json) : json := by_status stats "accepted".

Definition in_progress (stats : json) : json :=
  plus (by_status stats "applied") (by_status stats "interview").

(** [xs.join(sep)]: [null] elements give the empty string. *)
Definition join (sep : string) (xs : list json) : string :=
  String.concat sep
    (map (fun x => match x with JNull => "" | _ => to_string x end) xs).

(** [resume.parsed_data?.skills?.slice(0, 3).join(', ') || 'N/A'], for
    the truthy [resume] the card is rendered for. A string has [slice]
    but its result has no [join]; other values have no [slice]. *)
Definition skills_summary (resume : json) : TypeError + json :=
  match opt_get (opt_get (Some resume) "parsed_data") "skills" with
  | None | Some JNull => inr (JStr "N/A")
  | Some (JArr xs) =>
      inr (or_else (Some (JStr (join ", " (take 3 xs)))) (JStr "N/A"))
  | Some _ => inl type_error
  end.

End DashboardView.

(** ** pages/Applications.js: the status filter *)

Module ApplicationsView.

(** [app.status === filter] *)
Definition status_is (filter : string) (app : json) : TypeError + bool :=
  match get app "status" with
  | inl e => inl e
  | inr (Some (JStr s)) => inr (String.eqb s filter)
  | inr _ => inr false
  end.

(** [xs.filter(app => app.status === filter)]; the callback raises a
    TypeError at a [null] element. *)
Fixpoint filter_status (filter : string) (xs : list json)
    : TypeError + list json :=
  match xs with
  | [] => inr []
  | app :: rest =>
      match status_is filter app with
      | inl e => inl e
      | inr keep =>
          match filter_status filter rest with
          | inl e => inl e
          | inr kept => inr (if keep then app :: kept else kept)
          end
      end
  end.

(** [filter === 'all' ? applications
                       : applications.filter(app => app.status === filter)] *)
Definition filteredApplications (s : Applications.State) : TypeError + json :=
  if String.eqb (Applications.filter s) "all" then
    inr (Applications.applications s)
  else
    match Applications.applications s with
    | JArr xs =>
        match filter_status (Applications.filter s) xs with
        | inl e => inl e
        | inr kept => inr (JArr kept)
        end
    | _ => inl type_error
    end.

End ApplicationsView.

(** ** pages/ApplicationDetail.js: copying a document *)

Module ApplicationDetailView.

(** The [copied] state: an object with the flags [resume] and [cover]. *)
Abbreviation Copied := (gmap string bool).

Definition initial : Copied := <["cover" := false]> (<["resume" := false]> ∅).

(** A callback handed to [setTimeout]. *)
Abbreviation Timer := (M Copied unit).

(** [written] tells whether [navigator.clipboard.writeText] is
    fulfilled. [copied] is read when the handler is called: the handler
    and the timer's callback close over the state of the render the
    click happened in. *)
Definition copyToClipboard (type : string) (written : bool)
    : M Copied (option Timer) :=
  copied ← get_view;
  if written then
    set_view (fun _ => <[type := true]> copied);;
    toast Success (JStr "Copied to clipboard!");;
    mret (Some (set_view (fun _ => <[type := false]> copied)))
  else
    toast Error (JStr "Failed to copy");;
    mret None.

(** The timer, when it fires. *)
Definition fire (t : option Timer) : M Copied unit :=
  match t with
  | Some callback => callback
  | None => mret tt
  end.

End ApplicationDetailView.

(** ** pages/ResumeEditor.js: the Cancel button *)

Module ResumeEditorView.

(** [() => { setEditing(false); fetchResume(); }] *)
Definition onCancel (rResume : Reply (option (ResumeEditor.Resume ResumeEditor.entry)))
    : M ResumeEditor.State unit :=
  set_view (ResumeEditor.setEditing false);;
  ResumeEditor.fetchResume rResume.

(** One action on the draft in edit mode. *)
Inductive Edit : Type :=
| AddSkill
| UpdateSkill (index : nat) (value : string)
| RemoveSkill (index : nat)
| AddExperience
| UpdateExperience (index : nat) (field value : string)
| RemoveExperience (index : nat)
| AddEducation
| UpdateEducation (index : nat) (field value : string)
| RemoveEducation (index : nat).

(** The state after the action's handler; a handler that raises leaves
    the state as it was. *)
Definition apply (e : Edit) (s : ResumeEditor.State) : ResumeEditor.State :=
  match e with
  | AddSkill => ResumeEditor.addSkill s
  | UpdateSkill i v => ResumeEditor.updateSkill i v s
  | RemoveSkill i => ResumeEditor.removeSkill i s
  | AddExperience => ResumeEditor.addExperience s
  | UpdateExperience i f v =>
      match ResumeEditor.updateExperience i f v s with
      | inr s' => s'
      | inl _ => s
      end
  | RemoveExperience i => ResumeEditor.removeExperience i s
  | AddEducation => ResumeEditor.addEducation s
  | UpdateEducation i f v =>
      match ResumeEditor.updateEducation i f v s with
      | inr s' => s'
      | inl _ => s
      end
  | RemoveEducation i => ResumeEditor.removeEducation i s
  end.

(** A sequence of actions, first to last. *)
Definition edits (es : list Edit) (s : ResumeEditor.State) : ResumeEditor.State :=
  foldl (fun s e => apply e s) s es.

End ResumeEditorView.

(** * Vocabulary of the properties *)

(** ** Invariants of handlers *)

(** [m] neither writes to nor removes from localStorage. *)
Definition keeps_storage {S A} (m : M S A) : Prop :=
  forall w, storage (m w).2 = storage w.

(** [m] only adds events at the end of the trace. *)
Definition grows {S A} (m : M S A) : Prop :=
  forall w, exists new, trace (m w).2 = trace w ++ new.

(** No handler of a resource view writes to or removes from localStorage. *)
Definition resource_views_keep_storage : Prop :=
  (forall r1 r2 r3, keeps_storage (Dashboard.fetchData r1 r2 r3)) /\
  (forall files r r1 r2 r3,
      keeps_storage (Dashboard.handleFileUpload files r r1 r2 r3)) /\
  (forall r, keeps_storage (Jobs.fetchJobs r)) /\
  (forall r1 r2, keeps_storage (Jobs.handleSubmit r1 r2)) /\
  (forall j a r1 r2, keeps_storage (Jobs.handleDelete j a r1 r2)) /\
  (forall j r, keeps_storage (Jobs.handleApply j r)) /\
  (forall r, keeps_storage (Applications.fetchApplications r)) /\
  (forall a n r1 r2, keeps_storage (Applications.handleStatusUpdate a n r1 r2)) /\
  (forall i r, keeps_storage (ApplicationDetail.fetchApplication i r)) /\
  (forall r, keeps_storage (ResumeEditor.fetchResume r)) /\
  (forall files r1 r2, keeps_storage (ResumeEditor.handleFileUpload files r1 r2)) /\
  (forall r1 r2, keeps_storage (ResumeEditor.handleSave r1 r2)).

(** ** The persisted session *)

(** Both entries of the persisted session are gone. *)
Definition session_cleared {S} (w : World S) : Prop :=
  storage w !! "token" = None /\ storage w !! "user" = None.

(** Session teardown: the session is cleared and the client has been
    sent to the login view. *)
Definition torn_down {S} (w : World S) : Prop :=
  session_cleared w /\ Navigate "/login" ∈ trace w.

(** ** Requests, written out *)

(** The request the Dashboard sends for a selected file. *)
Definition Dashboard_upload (token : option string) (file : File) : Request :=
  mkRequest POST "http://127.0.0.1:5000/api/resume/upload"
    (<["Content-Type" := "multipart/form-data"]> (auth_headers token))
    None (FormBody [("file", file)]).

(** The request the editor sends for a file of an allowed type. *)
Definition ResumeEditor_upload (token : option string) (file : File) : Request :=
  mkRequest POST "http://127.0.0.1:5000/api/api/resume/upload"
    (auth_headers token) (Some 30000) (FormBody [("file", file)]).

(** The request of the editor's fetch. *)
Definition ResumeEditor_fetch (token : option string) : Request :=
  mkRequest GET "http://127.0.0.1:5000/api/api/resume" (auth_headers token)
    None NoBody.

Definition login_request (c : Login.Credentials) : Request :=
  mkRequest POST "http://127.0.0.1:5000/api/login" ∅ None
    (JsonBody (JObj [("email", JStr (Login.email c));
                     ("password", JStr (Login.password c))])).

Definition register_request (r : Login.Registration) : Request :=
  mkRequest POST "http://127.0.0.1:5000/api/register" ∅ None
    (JsonBody (JObj [("name", JStr (Login.full_name r));
                     ("email", JStr (Login.reg_email r));
                     ("password", JStr (Login.reg_password r))])).

(** ** Outcomes, written out *)

Definition ask_delete : string := "Are you sure you want to delete this job?".

(** What follows the DELETE request, by its reply and the reply to the
    re-fetch. *)
Definition after_delete (token : option string) (rDelete rJobs : Reply json)
    : list Event :=
  match rDelete with
  | Fulfilled _ =>
      Toast Success (JStr "Job deleted") None
      :: Http (mkRequest GET "http://127.0.0.1:5000/api/jobs"
                 (auth_headers token) None NoBody)
      :: match rJobs with
         | Fulfilled _ => []
         | Rejected _ => [Toast Error (JStr "Failed to fetch jobs") None]
         end
  | Rejected _ => [Toast Error (JStr "Failed to delete job") None]
  end.

(** The world after a fulfilled login or registration whose body allows
    both property reads: [a] and [u] are what the reads return. *)
Definition entered (w : World Login.State) (req : Request) (welcome : string)
    (a u : value) : World Login.State :=
  let token := or_else a (JStr "dummy-token") in
  let userData := or_else u (JObj []) in
  mkWorld (<["user" := stringify userData]>
             (<["token" := to_string token]> (storage w)))
          userData
          (Login.mkState false (Login.loginData (view w))
                         (Login.registerData (view w)))
          (trace w ++ [PreventDefault; Http req;
                       SetItem "token" (to_string token);
                       SetItem "user" (stringify userData);
                       Toast Success (JStr welcome) None;
                       Navigate "/"]).

(** The statuses an application can have. *)
Definition statuses : list string :=
  ["applied"; "interview"; "rejected"; "accepted"; "pending"].

(** ** Sample inputs *)

Definition session : gmap string string :=
  <["user" := "{}"]> (<["token" := "t0k3n"]> ∅).

Definition unauthorized : AxiosError :=
  mkAxiosError (Some (mkErrorResponse 401 (JObj [("detail", JStr "Token expired")])))
               "Request failed with status code 401".

Definition png : File := mkFile "photo.png" "image/png".
Definition pdf : File := mkFile "cv.pdf" "application/pdf".

Definition dashboard0 : World Dashboard.State :=
  mkWorld session (JObj []) Dashboard.initial [].
Definition jobs0 : World Jobs.State :=
  mkWorld session (JObj []) Jobs.initial [].
Definition editor0 : World ResumeEditor.State :=
  mkWorld session (JObj []) ResumeEditor.initial [].
Definition login0 : World Login.State :=
  mkWorld ∅ JNull
    (Login.mkState false (Login.mkCredentials "ada@example.org" "pw")
                   (Login.mkRegistration "" "" ""))
    [].

(** A résumé as the server sends it: one skill, one job, one degree. *)
Definition sample_resume : ResumeEditor.Resume ResumeEditor.entry :=
  ResumeEditor.mkResume (Some (JNum 7))
    (Some (ResumeEditor.mkParsedData
             (Some "Ada") (Some "ada@example.org") None None
             (Some ["Rocq"])
             (Some [list_to_map [("title", "Engineer"); ("company", "Acme");
                                 ("duration", "2020-2022"); ("description", "")]])
             (Some [list_to_map [("degree", "BSc"); ("institution", "MIT");
                                 ("year", "2019")]])
             None)).

(** The editor once that résumé has been fetched. *)
Definition editor_with_resume : World ResumeEditor.State :=
  exec (ResumeEditor.fetchResume (Fulfilled (Some sample_resume))) editor0.

Definition editing0 : ResumeEditor.State := view editor_with_resume.

(** The title of the first experience entry and the degree of the first
    education entry that a draft denotes in a state. *)
Definition first_title (s : ResumeEditor.State) (d : ResumeEditor.EditData)
    : option string :=
  e ← ResumeEditor.v_experience
        (ResumeEditor.draft_value (ResumeEditor.objects s) d) !! 0%nat;
  entry ← e;
  entry !! "title".

Definition first_degree (s : ResumeEditor.State) (d : ResumeEditor.EditData)
    : option string :=
  e ← ResumeEditor.v_education
        (ResumeEditor.draft_value (ResumeEditor.objects s) d) !! 0%nat;
  entry ← e;
  entry !! "degree".

Definition seven_applications : list json :=
  [JNum 1; JNum 2; JNum 3; JNum 4; JNum 5; JNum 6; JNum 7].

(** A login reply that carries a token and a user. *)
Definition issued_user : json :=
  JObj [("id", JNum 1); ("full_name", JStr "Ada");
        ("email", JStr "ada@example.org")].
Definition issued : json :=
  JObj [("access_token", JStr "abc"); ("user", issued_user)].

(** A login reply that carries nothing. *)
Definition empty_body : json := JObj [].

(** ** The editor's heap *)

(** The references a draft holds. *)
Definition refs (d : ResumeEditor.EditData) : list ResumeEditor.loc :=
  ResumeEditor.experience d ++ ResumeEditor.education d.

(** Every reference of the draft points to an object, and no two slots
    of the draft share one. *)
Definition well_formed (s : ResumeEditor.State) : Prop :=
  NoDup (refs (ResumeEditor.editData s)) /\
  Forall (fun l => (l < length (ResumeEditor.objects s))%nat)
         (refs (ResumeEditor.editData s)).

(** The skills array has no hole. *)
Definition hole_free (xs : list ResumeEditor.slot) : Prop :=
  Forall (fun x => x <> ResumeEditor.Hole) xs.

(** What the draft of the editor denotes right now. *)
Definition current_draft (s : ResumeEditor.State) : ResumeEditor.DraftValue :=
  ResumeEditor.draft_value (ResumeEditor.objects s) (ResumeEditor.editData s).

(** The draft a reply stands for: each field of [parsed_data], or its
    default. *)
Definition reply_draft (r : ResumeEditor.Resume ResumeEditor.entry)
    : ResumeEditor.DraftValue :=
  let p := default (ResumeEditor.mkParsedData None None None None None None None None)
                   (ResumeEditor.parsed_data r) in
  ResumeEditor.mkDraftValue
    (default "" (ResumeEditor.pd_name p))
    (default "" (ResumeEditor.pd_email p))
    (default "" (ResumeEditor.pd_phone p))
    (default "" (ResumeEditor.pd_summary p))
    (ResumeEditor.Val <$> default [] (ResumeEditor.pd_skills p))
    (Some <$> default [] (ResumeEditor.pd_experience p))
    (Some <$> default [] (ResumeEditor.pd_education p))
    (default [] (ResumeEditor.pd_keywords p)).

(** The entry a new experience or education row starts as. *)
Definition blank_experience : ResumeEditor.entry :=
  list_to_map [("title", ""); ("company", ""); ("duration", ""); ("description", "")].
Definition blank_education : ResumeEditor.entry :=
  list_to_map [("degree", ""); ("institution", ""); ("year", "")].

(** ** Further requests, written out *)

Definition Jobs_fetch (token : option string) : Request :=
  mkRequest GET "http://127.0.0.1:5000/api/jobs" (auth_headers token) None NoBody.

Definition Jobs_create (token : option string) (f : Jobs.JobForm) : Request :=
  mkRequest POST "http://127.0.0.1:5000/api/jobs" (auth_headers token) None
    (JsonBody (Jobs.form_json f)).

Definition Jobs_apply (token : option string) (jobId : json) : Request :=
  mkRequest POST ("http://127.0.0.1:5000/api/applications/" +:+ to_string jobId)
    (auth_headers token) (Some 120000) (JsonBody (JObj [])).

Definition Applications_fetch (token : option string) : Request :=
  mkRequest GET "http://127.0.0.1:5000/api/applications" (auth_headers token)
    None NoBody.

Definition Applications_patch (token : option string) (appId : json)
    (newStatus : string) : Request :=
  mkRequest PATCH
    ("http://127.0.0.1:5000/api/applications/" +:+ to_string appId +:+ "/status")
    (auth_headers token) None (JsonBody (JObj [("status", JStr newStatus)])).

Definition ApplicationDetail_fetch (token : option string) (id : string) : Request :=
  mkRequest GET ("http://127.0.0.1:5000/api/applications/" +:+ id)
    (auth_headers token) None NoBody.

Definition Dashboard_fetches (token : option string) : list Request :=
  [mkRequest GET "http://127.0.0.1:5000/api/stats" (auth_headers token) None NoBody;
   mkRequest GET "http://127.0.0.1:5000/api/resume" (auth_headers token) None NoBody;
   mkRequest GET "http://127.0.0.1:5000/api/applications" (auth_headers token)
     None NoBody].

Definition ResumeEditor_save (token : option string) (id : value) (draft : json)
    : Request :=
  mkRequest PUT ("http://127.0.0.1:5000/api/api/resume/" +:+ template id)
    (auth_headers token) None (JsonBody draft).

(** ** Further predicates *)

(** The reply is a rejection. *)
Definition rejected {A} (r : Reply A) : Prop :=
  match r with
  | Rejected _ => True
  | Fulfilled _ => False
  end.

(** The value has the status [f]: it is an object whose [status] is the
    string [f]. *)
Definition has_status (f : string) (app : json) : bool :=
  match app with
  | JObj props =>
      match assoc "status" props with
      | Some (JStr s) => String.eqb s f
      | _ => false
      end
  | _ => false
  end.

(** The events a handler added to the trace of [w]. *)
Definition added {S} (w w' : World S) : list Event :=
  drop (length (trace w)) (trace w').

(** ** Further sample inputs *)

Definition no_session : World Jobs.State := mkWorld ∅ JNull Jobs.initial [].

Definition app0 : World bool := mkWorld session JNull true [].

Definition server_down : AxiosError := mkAxiosError None "Network Error".

Definition refused : AxiosError :=
  mkAxiosError (Some (mkErrorResponse 400 (JObj [("detail", JStr "Title is required")])))
               "Request failed with status code 400".

Definition two_jobs : json :=
  JArr [JObj [("id", JNum 1); ("title", JStr "Engineer")];
        JObj [("id", JNum 2); ("title", JStr "Analyst")]].

Definition some_applications : list json :=
  [JObj [("id", JNum 1); ("status", JStr "applied")];
   JObj [("id", JNum 2); ("status", JStr "interview")];
   JObj [("id", JNum 3); ("status", JStr "applied")];
   JObj [("id", JNum 4); ("status", JStr "pending")]].

Definition some_stats : json :=
  JObj [("total_jobs", JNum 9); ("total_applications", JNum 6);
        ("by_status", JObj [("applied", JNum 3); ("interview", JNum 2);
                            ("rejected", JNum 1)])].

Definition five_skills : json :=
  JObj [("parsed_data",
         JObj [("skills", JArr [JStr "Rocq"; JStr "OCaml"; JStr "Lean";
                                JStr "Agda"; JStr "Idris"])])].

(** A count as the stats reply carries it: a number, or nothing. *)
Definition count_of (v : value) : option Z :=
  match v with
  | None => Some 0
  | Some (JNum n) => Some n
  | Some _ => None
  end.

(** A [JSON.parse] that reads the text of [issued_user] and nothing
    else. *)
Definition parse_issued (text : string) : AppShell.SyntaxError + json :=
  if String.eqb text (stringify issued_user) then inr issued_user
  else inl AppShell.syntax_error.

(** A session next to an entry of another key. *)
Definition themed : World Jobs.State :=
  mkWorld (<["theme" := "dark"]> session) (JObj []) Jobs.initial [].

(** Storage that holds a token and a user text that is not JSON, and
    storage that holds a token alone. *)
Definition broken_user : World bool :=
  mkWorld (<["user" := "{oops"]> (<["token" := "t0k3n"]> ∅)) JNull true [].
Definition token_only : gmap string string := <["token" := "t0k3n"]> ∅.

(** * Properties *)

(** Unfolds the monad so that a handler applied to a world computes. *)
Ltac run :=
  cbv beta iota zeta delta
    [exec mbind M_bind mret M_ret emit getItem setItem removeItem setUser
     get_view set_view axios toast toast_id navigate console_error];
  cbn [fst snd trace storage view user].

(** ** Handlers that leave localStorage alone *)

Section Frame.
Context {S : Type}.

Lemma keeps_ret {A} (a : A) : keeps_storage (mret a : M S A).
Proof. intros w. reflexivity. Qed.

Lemma keeps_bind {A B} (m : M S A) (f : A -> M S B) :
  keeps_storage m -> (forall a, keeps_storage (f a)) -> keeps_storage (m ≫= f).
Proof.
  intros Hm Hf w. unfold mbind, M_bind.
  specialize (Hm w). destruct (m w) as [a w1]. simpl in Hm.
  rewrite Hf. exact Hm.
Qed.

Lemma keeps_emit e : keeps_storage (emit e : M S unit).
Proof. intros w. reflexivity. Qed.

Lemma keeps_getItem k : keeps_storage (getItem k : M S _).
Proof. intros w. reflexivity. Qed.

Lemma keeps_get_view : keeps_storage (get_view : M S S).
Proof. intros w. reflexivity. Qed.

Lemma keeps_set_view f : keeps_storage (set_view f : M S unit).
Proof. intros w. reflexivity. Qed.

Lemma keeps_axios {A} r (reply : Reply A) : keeps_storage (axios r reply : M S _).
Proof. intros w. reflexivity. Qed.

Lemma keeps_toast k msg : keeps_storage (toast k msg : M S unit).
Proof. intros w. reflexivity. Qed.

Lemma keeps_toast_id k msg i : keeps_storage (toast_id k msg i : M S unit).
Proof. intros w. reflexivity. Qed.

Lemma keeps_navigate p : keeps_storage (navigate p : M S unit).
Proof. intros w. reflexivity. Qed.

Lemma keeps_console_error l : keeps_storage (console_error l : M S unit).
Proof. intros w. reflexivity. Qed.

End Frame.

Create HintDb frame.
#[local] Hint Resolve keeps_ret keeps_emit keeps_getItem keeps_get_view
  keeps_set_view keeps_axios keeps_toast keeps_toast_id keeps_navigate
  keeps_console_error : frame.

(** Walks through a handler's binds and case distinctions. *)
Ltac frame :=
  repeat first
    [ solve [ auto with frame ]
    | apply keeps_bind; [ | intros ? ]
    | match goal with
      | |- keeps_storage (match ?x with _ => _ end) => destruct x
      | |- keeps_storage (if ?b then _ else _) => destruct b
      | |- keeps_storage (let (_, _) := ?p in _) => destruct p
      end ].

Lemma Dashboard_fetchData_keeps r1 r2 r3 :
  keeps_storage (Dashboard.fetchData r1 r2 r3).
Proof.
  unfold Dashboard.fetchData, Dashboard.setStats, Dashboard.setResume,
    Dashboard.setRecentApplications. frame.
Qed.
#[local] Hint Resolve Dashboard_fetchData_keeps : frame.

Lemma Dashboard_handleFileUpload_keeps files r r1 r2 r3 :
  keeps_storage (Dashboard.handleFileUpload files r r1 r2 r3).
Proof. unfold Dashboard.handleFileUpload, Dashboard.setUploading. frame. Qed.

Lemma Jobs_fetchJobs_keeps r : keeps_storage (Jobs.fetchJobs r).
Proof. unfold Jobs.fetchJobs, Jobs.setJobs. frame. Qed.
#[local] Hint Resolve Jobs_fetchJobs_keeps : frame.

Lemma Jobs_handleSubmit_keeps r1 r2 : keeps_storage (Jobs.handleSubmit r1 r2).
Proof.
  unfold Jobs.handleSubmit, Jobs.setLoading, Jobs.setDialogOpen, Jobs.setFormData.
  frame.
Qed.

Lemma Jobs_handleDelete_keeps j a r1 r2 : keeps_storage (Jobs.handleDelete j a r1 r2).
Proof. unfold Jobs.handleDelete. frame. Qed.

Lemma Jobs_handleApply_keeps j r : keeps_storage (Jobs.handleApply j r).
Proof. unfold Jobs.handleApply, Jobs.setApplying. frame. Qed.

Lemma Applications_fetchApplications_keeps r :
  keeps_storage (Applications.fetchApplications r).
Proof. unfold Applications.fetchApplications, Applications.setApplications. frame. Qed.
#[local] Hint Resolve Applications_fetchApplications_keeps : frame.

Lemma Applications_handleStatusUpdate_keeps a n r1 r2 :
  keeps_storage (Applications.handleStatusUpdate a n r1 r2).
Proof. unfold Applications.handleStatusUpdate. frame. Qed.

Lemma ApplicationDetail_fetchApplication_keeps i r :
  keeps_storage (ApplicationDetail.fetchApplication i r).
Proof. unfold ApplicationDetail.fetchApplication. frame. Qed.

Lemma ResumeEditor_fetchResume_send_keeps r :
  keeps_storage (ResumeEditor.fetchResume_send r).
Proof. unfold ResumeEditor.fetchResume_send. frame. Qed.

Lemma ResumeEditor_fetchResume_settle_keeps p :
  keeps_storage (ResumeEditor.fetchResume_settle p).
Proof. unfold ResumeEditor.fetchResume_settle. frame. Qed.
#[local] Hint Resolve ResumeEditor_fetchResume_send_keeps
  ResumeEditor_fetchResume_settle_keeps : frame.

Lemma ResumeEditor_fetchResume_keeps r : keeps_storage (ResumeEditor.fetchResume r).
Proof. unfold ResumeEditor.fetchResume. frame. Qed.
#[local] Hint Resolve ResumeEditor_fetchResume_keeps : frame.

Lemma ResumeEditor_handleFileUpload_keeps files r1 r2 :
  keeps_storage (ResumeEditor.handleFileUpload files r1 r2).
Proof. unfold ResumeEditor.handleFileUpload. frame. Qed.

Lemma ResumeEditor_handleSave_keeps r1 r2 :
  keeps_storage (ResumeEditor.handleSave r1 r2).
Proof. unfold ResumeEditor.handleSave. frame. Qed.

Lemma resource_views_keep_storage_holds : resource_views_keep_storage.
Proof.
  unfold resource_views_keep_storage.
  repeat split; intros.
  - apply Dashboard_fetchData_keeps.
  - apply Dashboard_handleFileUpload_keeps.
  - apply Jobs_fetchJobs_keeps.
  - apply Jobs_handleSubmit_keeps.
  - apply Jobs_handleDelete_keeps.
  - apply Jobs_handleApply_keeps.
  - apply Applications_fetchApplications_keeps.
  - apply Applications_handleStatusUpdate_keeps.
  - apply ApplicationDetail_fetchApplication_keeps.
  - apply ResumeEditor_fetchResume_keeps.
  - apply ResumeEditor_handleFileUpload_keeps.
  - apply ResumeEditor_handleSave_keeps.
Qed.

(** [login] and [logout] are the two that write to it. *)
Lemma login_persists {S} (token userData : json) (w : World S) :
  exec (App.login token userData) w
  = mkWorld (<["user" := stringify userData]>
               (<["token" := to_string token]> (storage w)))
            userData (view w)
            (trace w ++ [SetItem "token" (to_string token);
                         SetItem "user" (stringify userData)]).
Proof. unfold App.login. run. rewrite <- app_assoc. reflexivity. Qed.

Lemma logout_clears {S} (w : World S) : session_cleared (exec App.logout w).
Proof.
  unfold session_cleared, App.logout. run. split.
  - rewrite lookup_delete_ne by discriminate. apply lookup_delete_eq.
  - apply lookup_delete_eq.
Qed.

(** ** The trace is append-only *)

Section Grows.
Context {S : Type}.

Lemma grows_ret {A} (a : A) : grows (mret a : M S A).
Proof. intros w. exists []. symmetry. apply app_nil_r. Qed.

Lemma grows_bind {A B} (m : M S A) (f : A -> M S B) :
  grows m -> (forall a, grows (f a)) -> grows (m ≫= f).
Proof.
  intros Hm Hf w. unfold mbind, M_bind.
  destruct (Hm w) as [n1 H1]. destruct (m w) as [a w1]. simpl in H1.
  destruct (Hf a w1) as [n2 H2]. exists (n1 ++ n2).
  rewrite H2, H1. symmetry. apply app_assoc.
Qed.

Lemma grows_emit e : grows (emit e : M S unit).
Proof. intros w. exists [e]. reflexivity. Qed.

Lemma grows_getItem k : grows (getItem k : M S _).
Proof. intros w. exists []. symmetry. apply app_nil_r. Qed.

Lemma grows_get_view : grows (get_view : M S S).
Proof. intros w. exists []. symmetry. apply app_nil_r. Qed.

Lemma grows_set_view f : grows (set_view f : M S unit).
Proof. intros w. exists []. symmetry. apply app_nil_r. Qed.

Lemma grows_axios {A} r (reply : Reply A) : grows (axios r reply : M S _).
Proof. intros w. exists [Http r]. reflexivity. Qed.

Lemma grows_toast k msg : grows (toast k msg : M S unit).
Proof. apply grows_emit. Qed.

Lemma grows_toast_id k msg i : grows (toast_id k msg i : M S unit).
Proof. apply grows_emit. Qed.

Lemma grows_navigate p : grows (navigate p : M S unit).
Proof. apply grows_emit. Qed.

Lemma grows_console_error l : grows (console_error l : M S unit).
Proof. apply grows_emit. Qed.

End Grows.

Create HintDb grows.
#[local] Hint Resolve grows_ret grows_emit grows_getItem grows_get_view
  grows_set_view grows_axios grows_toast grows_toast_id grows_navigate
  grows_console_error : grows.

Ltac grow :=
  repeat first
    [ solve [ auto with grows ]
    | apply grows_bind; [ | intros ? ]
    | match goal with
      | |- grows (match ?x with _ => _ end) => destruct x
      | |- grows (if ?b then _ else _) => destruct b
      | |- grows (let (_, _) := ?p in _) => destruct p
      end ].

Lemma Dashboard_fetchData_grows r1 r2 r3 : grows (Dashboard.fetchData r1 r2 r3).
Proof.
  unfold Dashboard.fetchData, Dashboard.setStats, Dashboard.setResume,
    Dashboard.setRecentApplications. grow.
Qed.

Lemma ResumeEditor_fetchResume_send_grows r : grows (ResumeEditor.fetchResume_send r).
Proof. unfold ResumeEditor.fetchResume_send. grow. Qed.

Lemma ResumeEditor_fetchResume_settle_grows p :
  grows (ResumeEditor.fetchResume_settle p).
Proof. unfold ResumeEditor.fetchResume_settle. grow. Qed.

(** ** Uploads *)

(** Whatever file is selected, the Dashboard's first act towards the
    outside is to post it. *)
Lemma Dashboard_upload_sent file files rU r1 r2 r3 (w : World Dashboard.State) :
  exists rest,
    trace (exec (Dashboard.handleFileUpload (file :: files) rU r1 r2 r3) w)
    = trace w ++ Http (Dashboard_upload (storage w !! "token") file) :: rest.
Proof.
  unfold Dashboard.handleFileUpload, Dashboard.setUploading.
  cbn [head]. run.
  destruct rU as [d | e]; run.
  - match goal with
    | |- context [Dashboard.fetchData r1 r2 r3 ?w1] =>
        destruct (Dashboard_fetchData_grows r1 r2 r3 w1) as [new Hnew];
        destruct (Dashboard.fetchData r1 r2 r3 w1) as [[] w2]
    end.
    cbn [snd trace] in Hnew |- *. rewrite Hnew.
    repeat rewrite <- app_assoc. eexists. reflexivity.
  - repeat rewrite <- app_assoc. eexists. reflexivity.
Qed.

(** The editor turns a file of another type away: one notification, no
    request, no state change. *)
Lemma ResumeEditor_upload_rejected file files rU rR (w : World ResumeEditor.State) :
  file_type file ∉ ResumeEditor.allowedTypes ->
  exec (ResumeEditor.handleFileUpload (file :: files) rU rR) w
  = mkWorld (storage w) (user w) (view w)
      (trace w ++
       [Toast Error (JStr "Only PDF, DOC, DOCX, or TXT files are allowed.") None]).
Proof.
  intros Hty. unfold ResumeEditor.handleFileUpload. cbn [head].
  rewrite bool_decide_eq_false_2 by exact Hty. reflexivity.
Qed.

(** A file of an allowed type goes out, when there is a token. *)
Lemma ResumeEditor_upload_sent file files rU rR (w : World ResumeEditor.State) :
  file_type file ∈ ResumeEditor.allowedTypes ->
  ResumeEditor.no_token (storage w !! "token") = false ->
  exists rest,
    trace (exec (ResumeEditor.handleFileUpload (file :: files) rU rR) w)
    = trace w ++ Http (ResumeEditor_upload (storage w !! "token") file) :: rest.
Proof.
  intros Hty Htok.
  unfold ResumeEditor.handleFileUpload.
  cbn [head]. rewrite bool_decide_eq_true_2 by exact Hty. cbn [negb].
  run. rewrite Htok.
  destruct rU as [d | e]; run.
  - match goal with
    | |- context [ResumeEditor.fetchResume_send rR ?w1] =>
        destruct (ResumeEditor_fetchResume_send_grows rR w1) as [n1 H1];
        destruct (ResumeEditor.fetchResume_send rR w1) as [pending w2]
    end.
    cbn [snd trace] in H1.
    match goal with
    | |- context [ResumeEditor.fetchResume_settle pending ?w3] =>
        destruct (ResumeEditor_fetchResume_settle_grows pending w3) as [n2 H2];
        destruct (ResumeEditor.fetchResume_settle pending w3) as [[] w4]
    end.
    cbn [snd trace] in H2 |- *. rewrite H2, H1.
    repeat rewrite <- app_assoc. eexists. reflexivity.
  - repeat rewrite <- app_assoc. eexists. reflexivity.
Qed.

(** A PDF through the editor: the upload, then the re-fetch; the file
    input is reset before the re-fetch's reply is handled. *)
Example ResumeEditor_uploads_pdf :
  trace (exec (ResumeEditor.handleFileUpload [pdf] (Fulfilled JNull)
                 (Rejected unauthorized)) editor0)
  = [Http (ResumeEditor_upload (Some "t0k3n") pdf);
     Toast Success (JStr "Resume uploaded and parsed successfully!") None;
     Http (ResumeEditor_fetch (Some "t0k3n"));
     ResetInput;
     ConsoleError "Error fetching resume:";
     Toast Error (JStr "Session expired. Please log in again.") None;
     Navigate "/login"].
Proof. reflexivity. Qed.

(** C1 (code defect). A file whose type is outside the allowed ones is
    turned away by the editor, but the Dashboard's handler has no such
    check: selecting [photo.png] there sends the upload request. *)
Theorem C1_dashboard_posts_disallowed_type :
  (file_type png ∉ ResumeEditor.allowedTypes) /\
  (requests (trace (exec (Dashboard.handleFileUpload [png]
                            (Rejected unauthorized) (Rejected unauthorized)
                            (Rejected unauthorized) (Rejected unauthorized))
                         dashboard0))
   = [Dashboard_upload (Some "t0k3n") png]) /\
  (requests (trace (exec (ResumeEditor.handleFileUpload [png]
                            (Rejected unauthorized) (Rejected unauthorized))
                         editor0))
   = []).
Proof.
  split; [ | split ].
  - apply (bool_decide_unpack _). vm_compute. exact I.
  - reflexivity.
  - reflexivity.
Qed.

(** C5 (code defect). The editor's upload request has no Content-Type
    entry among its headers; the Dashboard's sets it to
    [multipart/form-data], for every file and every world. *)
Theorem C5_dashboard_sets_content_type file files rU r1 r2 r3
    (w : World Dashboard.State) :
  exists r rest,
    (trace (exec (Dashboard.handleFileUpload (file :: files) rU r1 r2 r3) w)
     = trace w ++ Http r :: rest) /\
    (method r = POST) /\
    (url r = App.API +:+ "/resume/upload") /\
    (headers r !! "Content-Type" = Some "multipart/form-data") /\
    (forall token f, headers (ResumeEditor_upload token f) !! "Content-Type" = None).
Proof.
  destruct (Dashboard_upload_sent file files rU r1 r2 r3 w) as [rest Hrest].
  exists (Dashboard_upload (storage w !! "token") file), rest.
  split; [exact Hrest | ].
  split; [reflexivity | ]. split; [reflexivity | ].
  split.
  - apply lookup_insert_eq.
  - intros token f. cbn [ResumeEditor_upload headers]. unfold auth_headers.
    apply lookup_singleton_ne. discriminate.
Qed.

(** C6 (code defect). The editor's upload carries a 30000 ms timeout and
    the apply request a 120000 ms one; the Dashboard's upload request
    carries none, for every file and every world. *)
Theorem C6_dashboard_upload_unbounded file files rU r1 r2 r3 jobId rA
    (w : World Dashboard.State) (wj : World Jobs.State) :
  (exists r rest,
     (trace (exec (Dashboard.handleFileUpload (file :: files) rU r1 r2 r3) w)
      = trace w ++ Http r :: rest) /\
     (url r = App.API +:+ "/resume/upload") /\
     (timeout r = None)) /\
  (forall token f, timeout (ResumeEditor_upload token f) = Some 30000) /\
  ((fun r => (method r, url r, timeout r)) <$>
     requests (drop (length (trace wj))
                 (trace (exec (Jobs.handleApply jobId rA) wj)))
   = [(POST, "http://127.0.0.1:5000/api/applications/" +:+ to_string jobId,
       Some 120000)]).
Proof.
  split; [ | split ].
  - destruct (Dashboard_upload_sent file files rU r1 r2 r3 w) as [rest Hrest].
    exists (Dashboard_upload (storage w !! "token") file), rest.
    split; [exact Hrest | ]. split; reflexivity.
  - reflexivity.
  - unfold Jobs.handleApply, Jobs.setApplying. run.
    destruct rA; run; repeat rewrite <- app_assoc;
      rewrite drop_app_length; reflexivity.
Qed.

(** ** Paths of the résumé requests *)

(** With a token in storage, the editor's fetch asks for this address. *)
Lemma ResumeEditor_fetchResume_request rR (w : World ResumeEditor.State) :
  ResumeEditor.no_token (storage w !! "token") = false ->
  exists rest,
    trace (exec (ResumeEditor.fetchResume rR) w)
    = trace w ++ Http (ResumeEditor_fetch (storage w !! "token")) :: rest.
Proof.
  intros Htok. unfold ResumeEditor.fetchResume, ResumeEditor.fetchResume_send.
  run. rewrite Htok. run.
  match goal with
  | |- context [ResumeEditor.fetchResume_settle ?p ?w1] =>
      destruct (ResumeEditor_fetchResume_settle_grows p w1) as [new Hnew];
      destruct (ResumeEditor.fetchResume_settle p w1) as [[] w2]
  end.
  cbn [snd trace] in Hnew |- *. rewrite Hnew.
  rewrite <- app_assoc. eexists. reflexivity.
Qed.

(** The Dashboard's mount fetch asks for these three addresses. *)
Lemma Dashboard_fetchData_requests r1 r2 r3 (w : World Dashboard.State) :
  (fun r => (method r, url r)) <$>
    requests (drop (length (trace w)) (trace (exec (Dashboard.fetchData r1 r2 r3) w)))
  = [(GET, "http://127.0.0.1:5000/api/stats");
     (GET, "http://127.0.0.1:5000/api/resume");
     (GET, "http://127.0.0.1:5000/api/applications")].
Proof.
  unfold Dashboard.fetchData, Dashboard.setStats, Dashboard.setResume,
    Dashboard.setRecentApplications. run.
  destruct r1, r2, r3; run; try destruct (Dashboard.slice_0_5 _); run;
    repeat rewrite <- app_assoc; rewrite drop_app_length; reflexivity.
Qed.

(** C3 (code defect). [API] already ends in [/api], and the editor adds
    [/api] once more: its fetch goes to [/api/api/resume] and its save
    (of the résumé with id 7) to [/api/api/resume/7], while the
    Dashboard fetches the résumé from [/api/resume]. *)
Theorem C3_editor_paths_repeat_api :
  ((fun r => (method r, url r)) <$>
     requests (trace (exec (ResumeEditor.fetchResume (Fulfilled None)) editor0))
   = [(GET, "http://127.0.0.1:5000/api/api/resume")]) /\
  ((fun r => (method r, url r)) <$>
     requests (drop (length (trace editor_with_resume))
                 (trace (exec (ResumeEditor.handleSave (Rejected unauthorized)
                                 (Fulfilled None))
                              editor_with_resume)))
   = [(PUT, "http://127.0.0.1:5000/api/api/resume/7")]) /\
  ((fun r => (method r, url r)) <$>
     requests (trace (exec (Dashboard.fetchData (Fulfilled JNull) (Fulfilled JNull)
                              (Fulfilled (JArr [])))
                           dashboard0))
   = [(GET, "http://127.0.0.1:5000/api/stats");
      (GET, "http://127.0.0.1:5000/api/resume");
      (GET, "http://127.0.0.1:5000/api/applications")]).
Proof. split; [ | split ]; reflexivity. Qed.

(** ** A 401 reply and the persisted session *)

(** C2, as stated, fails: after a 401 reply to the Jobs fetch the session
    is still there and nothing navigates; after a 401 reply to the
    editor's fetch the client navigates, with the session still there. *)
Lemma C2_counterexample :
  is_401 unauthorized = true /\
  ~ torn_down (exec (Jobs.fetchJobs (Rejected unauthorized)) jobs0) /\
  ~ torn_down (exec (ResumeEditor.fetchResume (Rejected unauthorized)) editor0).
Proof.
  split; [reflexivity | ].
  split; intros [[Htoken _] _]; vm_compute in Htoken; discriminate.
Qed.

(** What the Jobs fetch does with that reply, in full. *)
Example Jobs_fetch_unauthorized :
  exec (Jobs.fetchJobs (Rejected unauthorized)) jobs0
  = mkWorld session (JObj []) Jobs.initial
      [Http (mkRequest GET "http://127.0.0.1:5000/api/jobs"
               (auth_headers (Some "t0k3n")) None NoBody);
       Toast Error (JStr "Failed to fetch jobs") None].
Proof. reflexivity. Qed.

(** C2, amended. When the editor's fetch is answered with status 401, the
    client logs the error, shows the session-expired notification and
    navigates to the login view, and nothing else changes: the
    persisted session stays as it was. No handler of a resource view
    touches the persisted session; [logout] is what clears it. *)
Theorem C2_unauthorized_fetch_navigates_keeps_session
    (w : World ResumeEditor.State) (e : AxiosError) :
  is_401 e = true ->
  ResumeEditor.no_token (storage w !! "token") = false ->
  (exec (ResumeEditor.fetchResume (Rejected e)) w
   = mkWorld (storage w) (user w) (view w)
       (trace w ++
        [Http (ResumeEditor_fetch (storage w !! "token"));
         ConsoleError "Error fetching resume:";
         Toast Error (JStr "Session expired. Please log in again.") None;
         Navigate "/login"])) /\
  resource_views_keep_storage /\
  session_cleared (exec App.logout w).
Proof.
  intros H401 Htok. split; [ | split ].
  - unfold ResumeEditor.fetchResume, ResumeEditor.fetchResume_send,
      ResumeEditor.fetchResume_settle.
    run. rewrite Htok. run. rewrite H401. run.
    repeat rewrite <- app_assoc. reflexivity.
  - apply resource_views_keep_storage_holds.
  - apply logout_clears.
Qed.

(** C2, amended, on the sample session and the sample 401 error. *)
Lemma C2_unauthorized_fetch_witness :
  is_401 unauthorized = true /\
  ResumeEditor.no_token (storage editor0 !! "token") = false /\
  (exec (ResumeEditor.fetchResume (Rejected unauthorized)) editor0
   = mkWorld session (JObj []) ResumeEditor.initial
       [Http (ResumeEditor_fetch (Some "t0k3n"));
        ConsoleError "Error fetching resume:";
        Toast Error (JStr "Session expired. Please log in again.") None;
        Navigate "/login"]) /\
  session_cleared (exec App.logout editor0).
Proof.
  destruct (C2_unauthorized_fetch_navigates_keeps_session
              editor0 unauthorized eq_refl eq_refl) as (Hfetch & _ & Hlogout).
  split; [reflexivity | ]. split; [reflexivity | ].
  split; [exact Hfetch | exact Hlogout].
Defined.

(** ** Deleting a job *)

(** C7. Declining the dialog leaves the world as it was but for the
    dialog itself: no request, same view state, same storage. For
    either answer the dialog comes first, and the DELETE request for
    [/jobs/{id}] is in the trace exactly when the answer is yes, right
    after the dialog. *)
Theorem C7_delete_only_after_confirmation (jobId : json) (answer : bool)
    (rDelete rJobs : Reply json) (w : World Jobs.State) :
  (exec (Jobs.handleDelete jobId false rDelete rJobs) w
   = mkWorld (storage w) (user w) (view w) (trace w ++ [Confirm ask_delete false])) /\
  (trace (exec (Jobs.handleDelete jobId answer rDelete rJobs) w)
   = trace w ++
     Confirm ask_delete answer ::
     (if answer
      then Http (mkRequest DELETE
                   ("http://127.0.0.1:5000/api/jobs/" +:+ to_string jobId)
                   (auth_headers (storage w !! "token")) None NoBody)
           :: after_delete (storage w !! "token") rDelete rJobs
      else [])).
Proof.
  split; [reflexivity | ].
  unfold Jobs.handleDelete, Jobs.fetchJobs, Jobs.setJobs.
  destruct answer; [ | reflexivity ].
  cbn [negb]. run. destruct rDelete as [d | e]; run.
  - destruct rJobs as [d' | e']; run; repeat rewrite <- app_assoc; reflexivity.
  - repeat rewrite <- app_assoc. reflexivity.
Qed.

(** Deleting job 42, confirmed and accepted by the server. *)
Example delete_job_42 :
  requests (trace (exec (Jobs.handleDelete (JNum 42) true (Fulfilled JNull)
                           (Fulfilled (JArr []))) jobs0))
  = [mkRequest DELETE "http://127.0.0.1:5000/api/jobs/42"
       (auth_headers (Some "t0k3n")) None NoBody;
     mkRequest GET "http://127.0.0.1:5000/api/jobs"
       (auth_headers (Some "t0k3n")) None NoBody].
Proof. reflexivity. Qed.

(** ** Editing the draft *)

(** [updateSkill] creates no object and writes to none: whatever a draft
    denoted before, it denotes after. *)
Lemma updateSkill_keeps_previous_draft index value (s : ResumeEditor.State)
    (d : ResumeEditor.EditData) :
  ResumeEditor.draft_value
    (ResumeEditor.objects (ResumeEditor.updateSkill index value s)) d
  = ResumeEditor.draft_value (ResumeEditor.objects s) d.
Proof. reflexivity. Qed.

(** At an index inside the array, [updateSkill] replaces that slot of the
    new draft and no other. *)
Lemma updateSkill_in_range index value (s : ResumeEditor.State) :
  (index < length (ResumeEditor.skills (ResumeEditor.editData s)))%nat ->
  ResumeEditor.skills (ResumeEditor.editData (ResumeEditor.updateSkill index value s))
  = <[index := ResumeEditor.Val value]>
      (ResumeEditor.spread (ResumeEditor.skills (ResumeEditor.editData s))).
Proof.
  intros Hlt. unfold ResumeEditor.updateSkill, ResumeEditor.array_set.
  cbn [ResumeEditor.editData ResumeEditor.setEditData ResumeEditor.with_skills
       ResumeEditor.skills].
  unfold ResumeEditor.spread. rewrite length_fmap.
  destruct (decide _) as [_ | Hge]; [reflexivity | contradiction].
Qed.

(** Writing through a reference changes what every holder of the
    reference sees. *)
Lemma assign_lookup l field value (h : ResumeEditor.heap) e :
  h !! l = Some e ->
  ResumeEditor.assign l field value h !! l = Some (<[field := value]> e).
Proof.
  intros He. unfold ResumeEditor.assign.
  rewrite list_lookup_alter_eq, He. reflexivity.
Qed.

(** [updateExperience] at a valid index writes to the entry object that
    the previous draft holds too: unless the property already had that
    value, the previous draft no longer denotes what it did. *)
Lemma updateExperience_changes_previous_draft index field value
    (s : ResumeEditor.State) l e :
  ResumeEditor.experience (ResumeEditor.editData s) !! index = Some l ->
  ResumeEditor.objects s !! l = Some e ->
  e !! field <> Some value ->
  exists s',
    ResumeEditor.updateExperience index field value s = inr s' /\
    ResumeEditor.experience (ResumeEditor.editData s')
    = ResumeEditor.experience (ResumeEditor.editData s) /\
    ResumeEditor.draft_value (ResumeEditor.objects s') (ResumeEditor.editData s)
    <> ResumeEditor.draft_value (ResumeEditor.objects s) (ResumeEditor.editData s).
Proof.
  intros Hl He Hne. unfold ResumeEditor.updateExperience. rewrite Hl.
  eexists. split; [reflexivity | ]. split; [reflexivity | ].
  cbn [ResumeEditor.objects ResumeEditor.setEditData ResumeEditor.setObjects].
  intros Heq.
  apply (f_equal (fun v => ResumeEditor.v_experience v !! index)) in Heq.
  cbn [ResumeEditor.draft_value ResumeEditor.v_experience] in Heq.
  rewrite !list_lookup_fmap, Hl in Heq. cbn [fmap option_fmap option_map] in Heq.
  rewrite (assign_lookup _ _ _ _ _ He), He in Heq.
  apply Hne. injection Heq as Heq.
  rewrite <- Heq. apply lookup_insert_eq.
Qed.

(** The same for [updateEducation]. *)
Lemma updateEducation_changes_previous_draft index field value
    (s : ResumeEditor.State) l e :
  ResumeEditor.education (ResumeEditor.editData s) !! index = Some l ->
  ResumeEditor.objects s !! l = Some e ->
  e !! field <> Some value ->
  exists s',
    ResumeEditor.updateEducation index field value s = inr s' /\
    ResumeEditor.education (ResumeEditor.editData s')
    = ResumeEditor.education (ResumeEditor.editData s) /\
    ResumeEditor.draft_value (ResumeEditor.objects s') (ResumeEditor.editData s)
    <> ResumeEditor.draft_value (ResumeEditor.objects s) (ResumeEditor.editData s).
Proof.
  intros Hl He Hne. unfold ResumeEditor.updateEducation. rewrite Hl.
  eexists. split; [reflexivity | ]. split; [reflexivity | ].
  cbn [ResumeEditor.objects ResumeEditor.setEditData ResumeEditor.setObjects].
  intros Heq.
  apply (f_equal (fun v => ResumeEditor.v_education v !! index)) in Heq.
  cbn [ResumeEditor.draft_value ResumeEditor.v_education] in Heq.
  rewrite !list_lookup_fmap, Hl in Heq. cbn [fmap option_fmap option_map] in Heq.
  rewrite (assign_lookup _ _ _ _ _ He), He in Heq.
  apply Hne. injection Heq as Heq.
  rewrite <- Heq. apply lookup_insert_eq.
Qed.

(** C4 (code defect). On the fetched résumé, index 0 is valid for all
    three arrays. [updateSkill] leaves the previous draft as it was.
    [updateExperience] and [updateEducation] copy the array but assign
    into the entry object the previous draft shares: afterwards the
    previous draft reads [Manager] where it read [Engineer], and [MSc]
    where it read [BSc]. *)
Theorem C4_entry_updates_mutate_previous_draft :
  let previous := ResumeEditor.editData editing0 in
  (ResumeEditor.draft_value
     (ResumeEditor.objects (ResumeEditor.updateSkill 0 "Lean" editing0)) previous
   = ResumeEditor.draft_value (ResumeEditor.objects editing0) previous) /\
  (first_title editing0 previous = Some "Engineer") /\
  (first_degree editing0 previous = Some "BSc") /\
  (exists s', ResumeEditor.updateExperience 0 "title" "Manager" editing0 = inr s' /\
              first_title s' previous = Some "Manager") /\
  (exists s', ResumeEditor.updateEducation 0 "degree" "MSc" editing0 = inr s' /\
              first_degree s' previous = Some "MSc").
Proof.
  cbv zeta. split; [reflexivity | ]. split; [reflexivity | ].
  split; [reflexivity | ].
  split; eexists; (split; [reflexivity | ]); vm_compute; reflexivity.
Qed.

(** ** Logging in *)

Lemma handleLogin_fulfilled (w : World Login.State) (d : json) (a u : value) :
  get d "access_token" = inr a ->
  get d "user" = inr u ->
  exec (Login.handleLogin (Fulfilled d)) w
  = entered w (login_request (Login.loginData (view w))) "Welcome back!" a u.
Proof.
  intros Ha Hu. unfold Login.handleLogin, App.login, Login.setLoading.
  run. rewrite Ha, Hu. run.
  unfold entered. repeat rewrite <- app_assoc. reflexivity.
Qed.

Lemma handleRegister_fulfilled (w : World Login.State) (d : json) (a u : value) :
  get d "access_token" = inr a ->
  get d "user" = inr u ->
  exec (Login.handleRegister (Fulfilled d)) w
  = entered w (register_request (Login.registerData (view w)))
      "Account created successfully!" a u.
Proof.
  intros Ha Hu. unfold Login.handleRegister, App.login, Login.setLoading.
  run. rewrite Ha, Hu. run.
  unfold entered. repeat rewrite <- app_assoc. reflexivity.
Qed.

(** A body on which one property read succeeds is not [null], so any
    other read succeeds too. *)
Lemma get_total (d : json) (k k' : string) (v : value) :
  get d k = inr v -> exists v', get d k' = inr v'.
Proof. destruct d; cbn; intros H; try discriminate; eexists; reflexivity. Qed.

(** On a [null] body the property read throws: no session, a failure
    notification. *)
Example handleLogin_null_body :
  exec (Login.handleLogin (Fulfilled JNull)) login0
  = mkWorld ∅ JNull (view login0)
      [PreventDefault; Http (login_request (Login.loginData (view login0)));
       ConsoleError ""; Toast Error (JStr "Login failed") None].
Proof. reflexivity. Qed.

Lemma entered_token w req welcome a u :
  storage (entered w req welcome a u) !! "token"
  = Some (to_string (or_else a (JStr "dummy-token"))).
Proof.
  unfold entered. cbn [storage].
  rewrite lookup_insert_ne by discriminate. apply lookup_insert_eq.
Qed.

Lemma entered_user w req welcome a u :
  storage (entered w req welcome a u) !! "user"
  = Some (stringify (or_else u (JObj []))).
Proof. unfold entered. cbn [storage]. apply lookup_insert_eq. Qed.

(** ** The Dashboard's recent applications *)

Lemma fetchData_fulfilled (w : World Dashboard.State) (s r : json) (apps : list json) :
  view (exec (Dashboard.fetchData (Fulfilled s) (Fulfilled r) (Fulfilled (JArr apps))) w)
  = Dashboard.mkState s r (Dashboard.uploading (view w)) (JArr (take 5 apps)).
Proof. reflexivity. Qed.

(** When one of the three requests fails, nothing is displayed anew. *)
Lemma fetchData_rejected (w : World Dashboard.State) (r1 r2 : Reply json) e :
  view (exec (Dashboard.fetchData r1 r2 (Rejected e)) w) = view w.
Proof. destruct r1, r2; reflexivity. Qed.

(** C8. When the three requests of the mount fetch are fulfilled and
    the applications reply is an array, the recent-applications list is
    its first five elements: a prefix of it, at most five long, and all
    of it when it has no more than five. [login] stores the token and
    the user. A fulfilled login stores what the reply carries: the
    reply's [access_token] as the token and the reply's [user] as the
    user, whenever they are truthy (and the defaults otherwise); both
    are stored before the client navigates to the dashboard route,
    which the route guard then lets through when the stored token is
    not empty. *)
Theorem C8_recent_applications_and_login
    (w : World Dashboard.State) (s r : json) (apps : list json)
    (wl : World Login.State) (token userData : json)
    (d : json) (a u : value) :
  get d "access_token" = inr a ->
  get d "user" = inr u ->
  let w' := exec (Dashboard.fetchData (Fulfilled s) (Fulfilled r)
                    (Fulfilled (JArr apps))) w in
  let w1 := exec (App.login token userData) wl in
  let w2 := exec (Login.handleLogin (Fulfilled d)) wl in
  let tok := to_string (or_else a (JStr "dummy-token")) in
  let usr := or_else u (JObj []) in
  (Dashboard.recentApplications (view w') = JArr (take 5 apps)) /\
  (take 5 apps `prefix_of` apps) /\
  (length (take 5 apps) <= 5)%nat /\
  ((length apps <= 5)%nat -> Dashboard.recentApplications (view w') = JArr apps) /\
  (storage w1 !! "token" = Some (to_string token)) /\
  (storage w1 !! "user" = Some (stringify userData)) /\
  (user w1 = userData) /\
  (storage w2 !! "token" = Some tok) /\
  (storage w2 !! "user" = Some (stringify usr)) /\
  (user w2 = usr) /\
  (forall t issued_to,
     a = Some t -> u = Some issued_to -> truthy a = true -> truthy u = true ->
     storage w2 !! "token" = Some (to_string t) /\
     storage w2 !! "user" = Some (stringify issued_to) /\
     user w2 = issued_to) /\
  (trace w2 = trace wl ++
              [PreventDefault;
               Http (login_request (Login.loginData (view wl)));
               SetItem "token" tok; SetItem "user" (stringify usr);
               Toast Success (JStr "Welcome back!") None;
               Navigate "/"]) /\
  (tok <> "" -> App.ProtectedRoute (storage w2) = App.Children).
Proof.
  intros Ha Hu w' w1 w2 tok usr.
  assert (Hview : Dashboard.recentApplications (view w') = JArr (take 5 apps))
    by reflexivity.
  split; [exact Hview | ].
  split; [apply prefix_take | ].
  split; [rewrite length_take; lia | ].
  split; [intros Hlen; rewrite Hview, firstn_all2 by exact Hlen; reflexivity | ].
  subst w1 w2 tok usr.
  rewrite login_persists, (handleLogin_fulfilled wl d a u Ha Hu).
  split; [cbn [storage]; rewrite lookup_insert_ne by discriminate;
          apply lookup_insert_eq | ].
  split; [apply lookup_insert_eq | ].
  split; [reflexivity | ].
  split; [apply entered_token | ].
  split; [apply entered_user | ].
  split; [reflexivity | ].
  split.
  { intros t issued_to -> -> Ht Hi.
    rewrite entered_token, entered_user. unfold entered, or_else. cbn [user].
    rewrite Ht, Hi. repeat split. }
  split; [reflexivity | ].
  intros Hne. unfold App.ProtectedRoute. rewrite entered_token.
  destruct (String.eqb_spec (to_string (or_else a (JStr "dummy-token"))) "")
    as [Heq | _]; [contradiction | reflexivity].
Qed.

(** C8 on seven applications and a login reply that carries a token
    and a user. *)
Lemma C8_recent_applications_witness :
  (get issued "access_token" = inr (Some (JStr "abc"))) /\
  (get issued "user" = inr (Some issued_user)) /\
  (Dashboard.recentApplications
     (view (exec (Dashboard.fetchData (Fulfilled JNull) (Fulfilled JNull)
                    (Fulfilled (JArr seven_applications))) dashboard0))
   = JArr [JNum 1; JNum 2; JNum 3; JNum 4; JNum 5]) /\
  (storage (exec (App.login (JStr "abc") issued_user) login0) !! "token"
   = Some "abc") /\
  (storage (exec (App.login (JStr "abc") issued_user) login0) !! "user"
   = Some (stringify issued_user)) /\
  (storage (exec (Login.handleLogin (Fulfilled issued)) login0) !! "token"
   = Some "abc") /\
  (storage (exec (Login.handleLogin (Fulfilled issued)) login0) !! "user"
   = Some (stringify issued_user)) /\
  (user (exec (Login.handleLogin (Fulfilled issued)) login0) = issued_user).
Proof.
  pose proof (C8_recent_applications_and_login
                dashboard0 JNull JNull seven_applications login0
                (JStr "abc") issued_user issued
                (Some (JStr "abc")) (Some issued_user) eq_refl eq_refl) as H.
  cbv zeta in H.
  destruct H as (Hrecent & _ & _ & _ & Htoken & Huser & _ & _ & _ & _ & Hreply & _).
  destruct (Hreply (JStr "abc") issued_user eq_refl eq_refl eq_refl eq_refl)
    as (Hstored & Hstored_user & Hstate).
  split; [reflexivity | ]. split; [reflexivity | ].
  split; [exact Hrecent | ]. split; [exact Htoken | ].
  split; [exact Huser | ]. split; [exact Hstored | ].
  split; [exact Hstored_user | exact Hstate].
Defined.

(** ** The fallback session *)

(** C10. Take a fulfilled login or registration whose body has no
    [access_token] or no [user] (the property read gives [undefined]).
    The handler still persists a session: both entries are written and
    the client navigates on. A missing [access_token] is stored as the
    string [dummy-token], which the route guard accepts like any other
    token; a missing [user] is stored as the empty object [{}]. *)
Theorem C10_fallback_session (w : World Login.State) (d : json) :
  get d "access_token" = inr None \/ get d "user" = inr None ->
  let w1 := exec (Login.handleLogin (Fulfilled d)) w in
  let w2 := exec (Login.handleRegister (Fulfilled d)) w in
  (is_Some (storage w1 !! "token") /\ is_Some (storage w1 !! "user")) /\
  (is_Some (storage w2 !! "token") /\ is_Some (storage w2 !! "user")) /\
  (Navigate "/" ∈ trace w1 /\ Navigate "/" ∈ trace w2) /\
  (get d "access_token" = inr None ->
     storage w1 !! "token" = Some "dummy-token" /\
     storage w2 !! "token" = Some "dummy-token" /\
     App.ProtectedRoute (storage w1) = App.Children /\
     App.ProtectedRoute (storage w2) = App.Children) /\
  (get d "user" = inr None ->
     storage w1 !! "user" = Some "{}" /\ user w1 = JObj [] /\
     storage w2 !! "user" = Some "{}" /\ user w2 = JObj []).
Proof.
  intros Hlacks w1 w2.
  assert (exists a u, get d "access_token" = inr a /\ get d "user" = inr u)
    as (a & u & Ha & Hu).
  { destruct Hlacks as [H | H].
    - destruct (get_total d _ "user" _ H) as [u Hu]. eauto.
    - destruct (get_total d _ "access_token" _ H) as [a Ha]. eauto. }
  subst w1 w2.
  rewrite (handleLogin_fulfilled w d a u Ha Hu),
          (handleRegister_fulfilled w d a u Ha Hu).
  split; [split; [rewrite entered_token | rewrite entered_user]; eauto | ].
  split; [split; [rewrite entered_token | rewrite entered_user]; eauto | ].
  split.
  { split; unfold entered; cbn [trace]; apply elem_of_app; right;
      repeat constructor. }
  split.
  - intros Ha'. rewrite Ha' in Ha. injection Ha as <-.
    unfold App.ProtectedRoute. rewrite !entered_token. cbn. auto.
  - intros Hu'. rewrite Hu' in Hu. injection Hu as <-.
    rewrite !entered_user. cbn. auto.
Qed.

(** C10 on a login reply with an empty object as its body. *)
Lemma C10_fallback_session_witness :
  (get empty_body "access_token" = inr None \/ get empty_body "user" = inr None) /\
  (get empty_body "access_token" = inr None) /\
  (get empty_body "user" = inr None) /\
  (storage (exec (Login.handleLogin (Fulfilled empty_body)) login0) !! "token"
   = Some "dummy-token") /\
  (storage (exec (Login.handleLogin (Fulfilled empty_body)) login0) !! "user"
   = Some "{}") /\
  (App.ProtectedRoute (storage (exec (Login.handleLogin (Fulfilled empty_body)) login0))
   = App.Children).
Proof.
  pose proof (C10_fallback_session login0 empty_body (or_introl eq_refl)) as H.
  cbv zeta in H.
  destruct H as (_ & _ & _ & Htoken & Huser).
  destruct (Htoken eq_refl) as (Ht & _ & Hguard & _).
  destruct (Huser eq_refl) as (Hu & _).
  split; [left; reflexivity | ].
  split; [reflexivity | ]. split; [reflexivity | ].
  split; [exact Ht | ]. split; [exact Hu | exact Hguard].
Defined.

(** ** Status badges *)

(** Splits membership in [statuses] into its five cases. *)
Ltac each_status H :=
  unfold statuses in H;
  repeat (apply elem_of_cons in H as [-> | H]);
  [ .. | apply elem_of_nil in H; contradiction ].

(** Both tables have the five statuses as their own keys, with the same
    colours. *)
Lemma colors_known key :
  key ∈ statuses ->
  exists c, prop Applications.statusColors key = Own c /\
            prop Dashboard.statusColors key = Own c.
Proof. intros H. each_status H; eexists; split; reflexivity. Qed.

(** At any other key the tables have no own property, and the lookup
    goes on to [Object.prototype]. *)
Lemma colors_unknown key :
  key ∉ statuses ->
  prop Applications.statusColors key
  = (if bool_decide (key ∈ Object_prototype) then Inherited key else Missing) /\
  prop Dashboard.statusColors key
  = (if bool_decide (key ∈ Object_prototype) then Inherited key else Missing).
Proof.
  intros H.
  assert (Ha : own Applications.statusColors !! key = None)
    by (apply not_elem_of_list_to_map_1; exact H).
  assert (Hd : own Dashboard.statusColors !! key = None)
    by (apply not_elem_of_list_to_map_1; exact H).
  unfold prop. rewrite Ha, Hd. split; reflexivity.
Qed.

(** The Dashboard's badge renders exactly when the lookup gives an own
    colour. *)
Lemma Dashboard_badge_spec (status : value) :
  match prop Dashboard.statusColors (template status) with
  | Own _ => exists b, Dashboard.badge status = inr b
  | _ => Dashboard.badge status = inl type_error
  end.
Proof.
  unfold Dashboard.badge.
  destruct (prop Dashboard.statusColors (template status)); [eexists | | ]; reflexivity.
Qed.

(** The Applications badge needs a string status besides. *)
Lemma Applications_badge_spec (status : value) :
  match prop Applications.statusColors (template status), status with
  | Own _, Some (JStr _) => exists b, Applications.badge status = inr b
  | _, _ => Applications.badge status = inl type_error
  end.
Proof.
  unfold Applications.badge.
  destruct (prop Applications.statusColors (template status));
    destruct status as [[ | | | | | ] | ]; try reflexivity.
  eexists. reflexivity.
Qed.

(** C9, as stated, fails at the names every object literal inherits:
    [constructor] is outside the set of statuses and the lookup at it is
    not [undefined]; and at a status that is not a string: the array
    holding [applied] is no status of the set, is looked up as
    [applied], and the Dashboard's badge renders. *)
Lemma C9_counterexample :
  ("constructor" ∉ statuses) /\
  (prop Applications.statusColors "constructor" = Inherited "constructor") /\
  (prop Dashboard.statusColors "constructor" = Inherited "constructor") /\
  (exists b, Dashboard.badge (Some (JArr [JStr "applied"])) = inr b).
Proof.
  split; [apply (bool_decide_unpack _); vm_compute; exact I | ].
  split; [reflexivity | ]. split; [reflexivity | ].
  eexists. reflexivity.
Qed.

(** C9, amended. A status is looked up by its property key, its string
    conversion. When the key is one of the five statuses, the lookup
    gives the table's own colour in both views; the Dashboard's badge
    renders, and the Applications badge renders when the status is a
    string and raises a TypeError when it is not. When the key is
    outside the five, both badges raise a TypeError: the lookup is
    [undefined], except at the property names of [Object.prototype],
    where it gives an inherited member that has no [replace]. *)
Theorem C9_badge_renders_on_known_statuses_only (status : value) :
  let key := template status in
  (key ∈ statuses ->
     (exists c, prop Applications.statusColors key = Own c /\
                prop Dashboard.statusColors key = Own c) /\
     (exists b, Dashboard.badge status = inr b) /\
     (forall s, status = Some (JStr s) -> exists b, Applications.badge status = inr b) /\
     ((forall s, status <> Some (JStr s)) ->
      Applications.badge status = inl type_error)) /\
  (key ∉ statuses ->
     (key ∈ Object_prototype ->
      prop Applications.statusColors key = Inherited key /\
      prop Dashboard.statusColors key = Inherited key) /\
     (key ∉ Object_prototype ->
      prop Applications.statusColors key = Missing /\
      prop Dashboard.statusColors key = Missing) /\
     Applications.badge status = inl type_error /\
     Dashboard.badge status = inl type_error).
Proof.
  intros key. subst key.
  pose proof (Applications_badge_spec status) as Hba.
  pose proof (Dashboard_badge_spec status) as Hbd.
  split; intros H.
  - destruct (colors_known _ H) as (c & Ha & Hd).
    rewrite Ha in Hba. rewrite Hd in Hbd.
    split; [exists c; split; assumption | ].
    split; [exact Hbd | ].
    split.
    + intros s ->. exact Hba.
    + intros Hnot. destruct status as [[ | | | s | | ] | ]; try exact Hba.
      exfalso. exact (Hnot s eq_refl).
  - destruct (colors_unknown _ H) as [Ha Hd].
    rewrite Ha in Hba. rewrite Hd in Hbd.
    split; [ | split; [ | split ] ].
    + intros Hin. rewrite Ha, Hd, (bool_decide_eq_true_2 _ Hin). split; reflexivity.
    + intros Hout. rewrite Ha, Hd, (bool_decide_eq_false_2 _ Hout). split; reflexivity.
    + destruct (bool_decide (template status ∈ Object_prototype));
        destruct status as [[ | | | | | ] | ]; exact Hba.
    + destruct (bool_decide (template status ∈ Object_prototype)); exact Hbd.
Qed.

(** C9 on a status of the data model, on one outside it, and on an
    inherited name. *)
Lemma C9_badge_witness :
  ("interview" ∈ statuses) /\
  ("withdrawn" ∉ statuses) /\
  ("constructor" ∉ statuses) /\
  ("constructor" ∈ Object_prototype) /\
  (exists b, Applications.badge (Some (JStr "interview")) = inr b) /\
  (exists b, Dashboard.badge (Some (JStr "interview")) = inr b) /\
  (Applications.badge (Some (JStr "withdrawn")) = inl type_error) /\
  (Dashboard.badge (Some (JStr "withdrawn")) = inl type_error) /\
  (prop Dashboard.statusColors "constructor" = Inherited "constructor") /\
  (Dashboard.badge (Some (JStr "constructor")) = inl type_error).
Proof.
  assert (Hin : "interview" ∈ statuses)
    by (apply (bool_decide_unpack _); vm_compute; exact I).
  assert (Hout : "withdrawn" ∉ statuses)
    by (apply (bool_decide_unpack _); vm_compute; exact I).
  assert (Hout' : "constructor" ∉ statuses)
    by (apply (bool_decide_unpack _); vm_compute; exact I).
  assert (Hproto : "constructor" ∈ Object_prototype)
    by (apply (bool_decide_unpack _); vm_compute; exact I).
  split; [exact Hin | ]. split; [exact Hout | ].
  split; [exact Hout' | ]. split; [exact Hproto | ].
  destruct (C9_badge_renders_on_known_statuses_only (Some (JStr "interview")))
    as [Hknown _].
  destruct (C9_badge_renders_on_known_statuses_only (Some (JStr "withdrawn")))
    as [_ Hunknown].
  destruct (C9_badge_renders_on_known_statuses_only (Some (JStr "constructor")))
    as [_ Hinherited].
  destruct (Hknown Hin) as (_ & Hd & Ha & _).
  destruct (Hunknown Hout) as (_ & _ & Ha' & Hd').
  destruct (Hinherited Hout') as (Hlookup & _ & _ & Hd'').
  split; [exact (Ha "interview" eq_refl) | ]. split; [exact Hd | ].
  split; [exact Ha' | ]. split; [exact Hd' | ].
  split; [exact (proj2 (Hlookup Hproto)) | exact Hd''].
Defined.

(** * The résumé editor: loading, editing and saving *)

(** ** Loading a reply *)

(** The references [alloc] hands out read back the entries, whatever is
    allocated after them. *)
Lemma lookup_allocated (h es rest : ResumeEditor.heap) :
  (fun l => (h ++ es ++ rest) !! l) <$> seq (length h) (length es) = Some <$> es.
Proof.
  revert h. induction es as [ | e es IH]; intros h; [reflexivity | ].
  cbn [length seq fmap list_fmap].
  f_equal.
  - apply list_lookup_middle. reflexivity.
  - specialize (IH (h ++ [e])).
    rewrite length_app, Nat.add_1_r in IH. cbn [length] in IH.
    rewrite <- app_assoc in IH. exact IH.
Qed.

Lemma lookup_allocated_last (h es : ResumeEditor.heap) :
  (fun l => (h ++ es) !! l) <$> seq (length h) (length es) = Some <$> es.
Proof.
  pose proof (lookup_allocated h es []) as H.
  rewrite app_nil_r in H. exact H.
Qed.

Lemma allocated_fresh (a n m len : nat) :
  (a + n + m <= len)%nat ->
  NoDup (seq a n ++ seq (a + n) m) /\
  Forall (fun l => (l < len)%nat) (seq a n ++ seq (a + n) m).
Proof.
  intros Hlen. rewrite <- seq_app. split.
  - apply NoDup_seq.
  - apply Forall_forall. intros l Hl. apply elem_of_seq in Hl. lia.
Qed.

(** Loading a reply into a heap: the new draft denotes the reply, the
    objects that were there stay where they are, and the draft's
    references are distinct and point into the heap. *)
Lemma load_spec (d : ResumeEditor.Resume ResumeEditor.entry) (h : ResumeEditor.heap) :
  let (r, h') := ResumeEditor.load d h in
  ResumeEditor.id r = ResumeEditor.id d /\
  ResumeEditor.draft_value h' (ResumeEditor.draft_of r) = reply_draft d /\
  h `prefix_of` h' /\
  NoDup (refs (ResumeEditor.draft_of r)) /\
  Forall (fun l => (l < length h')%nat) (refs (ResumeEditor.draft_of r)).
Proof.
  destruct d as [i [p | ]]; cbn [ResumeEditor.load ResumeEditor.parsed_data ResumeEditor.id].
  2:{ repeat split; try reflexivity; try constructor. }
  destruct p as [n e ph su sk [ex | ] [ed | ] kw];
    cbn -[seq];
    unfold reply_draft, ResumeEditor.draft_value, refs; cbn -[seq].
  - split; [reflexivity | ]. split; [ | split ].
    + f_equal.
      * rewrite <- app_assoc. apply lookup_allocated.
      * apply lookup_allocated_last.
    + rewrite <- app_assoc. apply prefix_app_r. reflexivity.
    + rewrite length_app. apply allocated_fresh. rewrite !length_app. lia.
  - split; [reflexivity | ]. split; [ | split ].
    + f_equal. apply lookup_allocated_last.
    + apply prefix_app_r. reflexivity.
    + pose proof (allocated_fresh (length h) (length ex) 0 (length (h ++ ex))) as H.
      cbn [seq] in H. apply H. rewrite length_app. lia.
  - split; [reflexivity | ]. split; [ | split ].
    + f_equal. apply lookup_allocated_last.
    + apply prefix_app_r. reflexivity.
    + pose proof (allocated_fresh (length h) 0 (length ed) (length (h ++ ed))) as H.
      cbn [seq app] in H. rewrite Nat.add_0_r in H. apply H. rewrite length_app. lia.
  - repeat split; try reflexivity; constructor.
Qed.

(** The state a fulfilled fetch of a résumé leaves, for any token. *)
Lemma fetchResume_loaded (w : World ResumeEditor.State) d :
  ResumeEditor.no_token (storage w !! "token") = false ->
  view (exec (ResumeEditor.fetchResume (Fulfilled (Some d))) w)
  = let (r, h) := ResumeEditor.load d (ResumeEditor.objects (view w)) in
    ResumeEditor.setEditData (ResumeEditor.draft_of r)
      (ResumeEditor.setResume (Some r) (ResumeEditor.setObjects h (view w))).
Proof.
  intros Htok. unfold ResumeEditor.fetchResume, ResumeEditor.fetchResume_send,
    ResumeEditor.fetchResume_settle.
  run. rewrite Htok. run.
  destruct (ResumeEditor.load d (ResumeEditor.objects (view w))) as [r h].
  reflexivity.
Qed.

Lemma fetchResume_well_formed (w : World ResumeEditor.State) d :
  ResumeEditor.no_token (storage w !! "token") = false ->
  well_formed (view (exec (ResumeEditor.fetchResume (Fulfilled (Some d))) w)).
Proof.
  intros Htok. rewrite (fetchResume_loaded w d Htok).
  pose proof (load_spec d (ResumeEditor.objects (view w))) as H.
  destruct (ResumeEditor.load d (ResumeEditor.objects (view w))) as [r h].
  destruct H as (_ & _ & _ & Hnd & Hlt). split; assumption.
Qed.

Lemma editing0_well_formed : well_formed editing0.
Proof. apply fetchResume_well_formed. reflexivity. Qed.

(** X1. When a token is stored and the request of [fetchResume] is
    fulfilled with a résumé, the draft of the editor denotes that reply
    field by field, each missing field of [parsed_data] (or a missing
    [parsed_data]) replaced by its default: the empty string or the
    empty array. The stored résumé has the reply's id, the objects that
    existed before are where they were, and the draft's entry references
    are distinct and point to objects. *)
Theorem fetchResume_loads_the_reply (w : World ResumeEditor.State)
    (d : ResumeEditor.Resume ResumeEditor.entry) :
  ResumeEditor.no_token (storage w !! "token") = false ->
  let s' := view (exec (ResumeEditor.fetchResume (Fulfilled (Some d))) w) in
  current_draft s' = reply_draft d /\
  (ResumeEditor.id <$> ResumeEditor.resume s') = Some (ResumeEditor.id d) /\
  ResumeEditor.objects (view w) `prefix_of` ResumeEditor.objects s' /\
  well_formed s'.
Proof.
  intros Htok s'. subst s'. rewrite (fetchResume_loaded w d Htok).
  pose proof (load_spec d (ResumeEditor.objects (view w))) as H.
  destruct (ResumeEditor.load d (ResumeEditor.objects (view w))) as [r h].
  destruct H as (Hid & Hval & Hpre & Hnd & Hlt).
  unfold current_draft, well_formed. cbn.
  rewrite Hid. repeat split; assumption.
Qed.

Lemma fetchResume_loads_the_reply_witness :
  ResumeEditor.no_token (storage editor0 !! "token") = false /\
  current_draft editing0 = reply_draft sample_resume.
Proof.
  split; [reflexivity | ].
  apply (fetchResume_loads_the_reply editor0 sample_resume). reflexivity.
Defined.

(** ** Removing a row *)

Lemma remove_from (k index : nat) {A} (xs : list A) :
  (imap (fun i x => if decide ((k + i)%nat = index) then None else Some x) xs)
    ≫= option_list
  = if decide (k <= index)%nat then delete (index - k)%nat xs else xs.
Proof.
  revert k. induction xs as [ | x xs IH]; intros k.
  - destruct (decide _); reflexivity.
  - rewrite imap_cons. cbn [mbind list_bind].
    rewrite (imap_ext _ (fun i x => if decide ((S k + i)%nat = index) then None else Some x))
      by (intros i y _; cbn; rewrite Nat.add_succ_r; reflexivity).
    fold (@mbind list _ _ _ (@option_list A)
            (imap (fun i x => if decide ((S k + i)%nat = index) then None else Some x) xs)).
    rewrite IH.
    destruct (decide ((k + 0)%nat = index)) as [Heq | Hne].
    + rewrite Nat.add_0_r in Heq. subst index.
      destruct (decide (S k <= k)%nat); [lia | ].
      destruct (decide (k <= k)%nat); [ | lia].
      rewrite Nat.sub_diag. reflexivity.
    + rewrite Nat.add_0_r in Hne. cbn [option_list app].
      destruct (decide (S k <= index)%nat), (decide (k <= index)%nat);
        try lia; try reflexivity.
      replace (index - k)%nat with (S (index - S k)) by lia. reflexivity.
Qed.

(** [filter((_, i) => i !== index)] deletes the element at [index], and
    nothing when [index] is past the end. *)
Lemma remove_at_delete {A} (index : nat) (xs : list A) :
  ResumeEditor.remove_at index xs = delete index xs.
Proof.
  unfold ResumeEditor.remove_at.
  pose proof (remove_from 0 index xs) as H. cbn [Nat.add] in H.
  rewrite H. destruct (decide (0 <= index)%nat); [ | lia].
  rewrite Nat.sub_0_r. reflexivity.
Qed.

(** ** Edits keep the heap well formed *)

(** Adding a new object at the end of the heap, and its reference to
    either array, keeps the draft well formed. *)
Lemma well_formed_add (s : ResumeEditor.State) (e : ResumeEditor.entry)
    (exp edu : list ResumeEditor.loc) :
  well_formed s ->
  refs (ResumeEditor.editData s) = exp ++ edu ->
  let n := length (ResumeEditor.objects s) in
  let inside := fun l => (l < length (ResumeEditor.objects s ++ [e]))%nat in
  (NoDup ((exp ++ [n]) ++ edu) /\ Forall inside ((exp ++ [n]) ++ edu)) /\
  (NoDup (exp ++ edu ++ [n]) /\ Forall inside (exp ++ edu ++ [n])).
Proof.
  intros [Hnd Hlt] Hrefs n inside. rewrite Hrefs in Hnd, Hlt.
  assert (Hfresh : n ∉ exp ++ edu).
  { intros Hin. rewrite Forall_forall in Hlt. specialize (Hlt n Hin).
    subst n. lia. }
  assert (Hnd' : NoDup (exp ++ edu ++ [n])).
  { rewrite app_assoc. apply NoDup_app. split; [exact Hnd | ].
    split; [ | apply NoDup_singleton ].
    intros x Hx Hx'. apply list_elem_of_singleton in Hx'. subst x. contradiction. }
  assert (Hin : inside n) by (subst inside n; cbn; rewrite length_app; cbn; lia).
  assert (Hlt' : Forall inside (exp ++ edu)).
  { eapply Forall_impl; [exact Hlt | ]. subst inside. cbn.
    intros l Hl. rewrite length_app. lia. }
  apply Forall_app in Hlt' as [Hexp Hedu].
  split; split.
  - eapply NoDup_Permutation_proper; [ | exact Hnd' ].
    rewrite <- !app_assoc. apply Permutation_app_head, Permutation_app_comm.
  - repeat (apply Forall_app; split); try assumption. repeat constructor. exact Hin.
  - exact Hnd'.
  - repeat (apply Forall_app; split); try assumption. repeat constructor. exact Hin.
Qed.

Lemma well_formed_delete_experience (s : ResumeEditor.State) (i : nat) :
  well_formed s -> well_formed (ResumeEditor.removeExperience i s).
Proof.
  intros [Hnd Hlt]. unfold well_formed, refs, ResumeEditor.removeExperience in *.
  cbn. rewrite remove_at_delete.
  assert (Hsub : delete i (ResumeEditor.experience (ResumeEditor.editData s))
                   ++ ResumeEditor.education (ResumeEditor.editData s)
                 `sublist_of`
                 ResumeEditor.experience (ResumeEditor.editData s)
                   ++ ResumeEditor.education (ResumeEditor.editData s)).
  { apply sublist_app; [apply sublist_delete | reflexivity]. }
  split.
  - eapply sublist_NoDup; eassumption.
  - apply Forall_app in Hlt as [Hexp Hedu].
    apply Forall_app. split; [apply Forall_delete | ]; assumption.
Qed.

Lemma well_formed_delete_education (s : ResumeEditor.State) (i : nat) :
  well_formed s -> well_formed (ResumeEditor.removeEducation i s).
Proof.
  intros [Hnd Hlt]. unfold well_formed, refs, ResumeEditor.removeEducation in *.
  cbn. rewrite remove_at_delete.
  assert (Hsub : ResumeEditor.experience (ResumeEditor.editData s)
                   ++ delete i (ResumeEditor.education (ResumeEditor.editData s))
                 `sublist_of`
                 ResumeEditor.experience (ResumeEditor.editData s)
                   ++ ResumeEditor.education (ResumeEditor.editData s)).
  { apply sublist_app; [reflexivity | apply sublist_delete]. }
  split.
  - eapply sublist_NoDup; eassumption.
  - apply Forall_app in Hlt as [Hexp Hedu].
    apply Forall_app. split; [ | apply Forall_delete ]; assumption.
Qed.

(** Every action on the draft keeps its references distinct and inside
    the heap. *)
Lemma apply_well_formed (e : ResumeEditorView.Edit) (s : ResumeEditor.State) :
  well_formed s -> well_formed (ResumeEditorView.apply e s).
Proof.
  intros Hwf. pose proof Hwf as [Hnd Hlt].
  destruct e as [ | i v | i | | i f v | i | | i f v | i ];
    cbn [ResumeEditorView.apply]; try exact Hwf.
  - destruct (well_formed_add s blank_experience _ _ Hwf eq_refl) as [H _].
    exact H.
  - unfold ResumeEditor.updateExperience.
    destruct (_ !! i) as [l | ]; [ | exact Hwf].
    split; [exact Hnd | ]. cbn. unfold ResumeEditor.assign.
    rewrite length_alter. exact Hlt.
  - apply well_formed_delete_experience. exact Hwf.
  - destruct (well_formed_add s blank_education _ _ Hwf eq_refl) as [_ H].
    exact H.
  - unfold ResumeEditor.updateEducation.
    destruct (_ !! i) as [l | ]; [ | exact Hwf].
    split; [exact Hnd | ]. cbn. unfold ResumeEditor.assign.
    rewrite length_alter. exact Hlt.
  - apply well_formed_delete_education. exact Hwf.
Qed.

(** X2. After a résumé has been fetched, any sequence of the nine draft
    actions (add, update and remove on skills, experience and education,
    with any indices, fields and values) leaves a draft whose entry
    references are pairwise distinct and all point to existing objects:
    no action makes two rows of the draft share an entry object, and
    none leaves a dangling row. *)
Theorem edits_keep_the_draft_well_formed (w : World ResumeEditor.State)
    (d : ResumeEditor.Resume ResumeEditor.entry) (es : list ResumeEditorView.Edit) :
  ResumeEditor.no_token (storage w !! "token") = false ->
  well_formed
    (ResumeEditorView.edits es
       (view (exec (ResumeEditor.fetchResume (Fulfilled (Some d))) w))).
Proof.
  intros Htok.
  pose proof (fetchResume_well_formed w d Htok) as Hwf.
  revert Hwf.
  generalize (view (exec (ResumeEditor.fetchResume (Fulfilled (Some d))) w)).
  unfold ResumeEditorView.edits.
  induction es as [ | e es IH]; intros s Hwf; [exact Hwf | ].
  cbn [foldl]. apply IH, apply_well_formed, Hwf.
Qed.

Lemma edits_keep_the_draft_well_formed_witness :
  ResumeEditor.no_token (storage editor0 !! "token") = false /\
  well_formed
    (ResumeEditorView.edits
       [ResumeEditorView.AddExperience;
        ResumeEditorView.UpdateExperience 1 "title" "Manager";
        ResumeEditorView.RemoveExperience 0;
        ResumeEditorView.AddEducation;
        ResumeEditorView.UpdateSkill 3 "Lean"]
       editing0).
Proof.
  split; [reflexivity | ].
  apply (edits_keep_the_draft_well_formed editor0 sample_resume). reflexivity.
Defined.

(** ** What an update does to the new draft *)







(** ** The skills array *)

Lemma spread_hole_free (xs : list ResumeEditor.slot) :
  hole_free xs -> ResumeEditor.spread xs = xs.
Proof.
  unfold ResumeEditor.spread. induction 1 as [ | x xs Hx _ IH]; [reflexivity | ].
  cbn [fmap list_fmap]. f_equal; [ | exact IH].
  destruct x; [contradiction | reflexivity | reflexivity].
Qed.

Lemma spread_no_hole (xs : list ResumeEditor.slot) :
  hole_free (ResumeEditor.spread xs).
Proof.
  unfold hole_free, ResumeEditor.spread. apply Forall_fmap, Forall_true.
  intros [ | | v]; cbn; discriminate.
Qed.

Lemma remove_slot_from (k index : nat) (xs : list ResumeEditor.slot) :
  hole_free xs ->
  List.filter (fun x => match x with ResumeEditor.Hole => false | _ => true end)
    (imap (fun i x => if decide ((k + i)%nat = index) then ResumeEditor.Hole else x) xs)
  = if decide (k <= index)%nat then delete (index - k)%nat xs else xs.
Proof.
  intros Hfree. revert k. induction Hfree as [ | x xs Hx _ IH]; intros k.
  - destruct (decide _); reflexivity.
  - rewrite imap_cons.
    rewrite (imap_ext _ (fun i x => if decide ((S k + i)%nat = index)
                                    then ResumeEditor.Hole else x))
      by (intros i y _; cbn; rewrite Nat.add_succ_r; reflexivity).
    cbn [List.filter]. rewrite IH.
    destruct (decide ((k + 0)%nat = index)) as [Heq | Hne].
    + rewrite Nat.add_0_r in Heq. subst index.
      destruct (decide (S k <= k)%nat); [lia | ].
      destruct (decide (k <= k)%nat); [ | lia].
      rewrite Nat.sub_diag. reflexivity.
    + rewrite Nat.add_0_r in Hne.
      destruct x; [contradiction | | ];
        destruct (decide (S k <= index)%nat), (decide (k <= index)%nat);
        try lia; try reflexivity;
        replace (index - k)%nat with (S (index - S k)) by lia; reflexivity.
Qed.

Lemma remove_slot_delete (index : nat) (xs : list ResumeEditor.slot) :
  hole_free xs -> ResumeEditor.remove_slot index xs = delete index xs.
Proof.
  intros Hfree. unfold ResumeEditor.remove_slot.
  pose proof (remove_slot_from 0 index xs Hfree) as H. cbn [Nat.add] in H.
  rewrite H. destruct (decide (0 <= index)%nat); [ | lia].
  rewrite Nat.sub_0_r. reflexivity.
Qed.

Lemma remove_slot_no_hole (index : nat) (xs : list ResumeEditor.slot) :
  hole_free (ResumeEditor.remove_slot index xs).
Proof.
  unfold hole_free, ResumeEditor.remove_slot. apply Forall_forall.
  intros x Hx. apply list_elem_of_In, filter_In in Hx as [_ Hx].
  intros ->. discriminate.
Qed.

Lemma editing0_hole_free :
  hole_free (ResumeEditor.skills (ResumeEditor.editData editing0)).
Proof. vm_compute. repeat constructor. discriminate. Qed.



(** X5. On a skills array without holes, removing the slot that
    [addSkill] has just appended gives back the state [addSkill]
    started from. *)
Theorem removeSkill_undoes_addSkill (s : ResumeEditor.State) :
  hole_free (ResumeEditor.skills (ResumeEditor.editData s)) ->
  ResumeEditor.removeSkill (length (ResumeEditor.skills (ResumeEditor.editData s)))
    (ResumeEditor.addSkill s) = s.
Proof.
  intros Hfree. destruct s as [h r e1 e2 e3 [n em ph su sk ex ed kw]].
  cbn in Hfree.
  unfold ResumeEditor.removeSkill, ResumeEditor.addSkill.
  cbn -[ResumeEditor.spread ResumeEditor.remove_slot].
  rewrite (spread_hole_free sk Hfree).
  rewrite remove_slot_delete.
  - rewrite delete_take_drop, take_app_length.
    rewrite drop_ge by (rewrite length_app; cbn; lia).
    rewrite app_nil_r. reflexivity.
  - apply Forall_app. split; [exact Hfree | ]. repeat constructor. discriminate.
Qed.

Lemma removeSkill_undoes_addSkill_witness :
  ResumeEditor.removeSkill 1 (ResumeEditor.addSkill editing0) = editing0.
Proof.
  apply (removeSkill_undoes_addSkill editing0). exact editing0_hole_free.
Defined.

(** X6. [removeSkill(index)] leaves a skills array without holes, even
    when the array had some. On an array without holes it deletes
    exactly the slot at [index], and with [index] past the end it
    changes nothing. *)
Theorem removeSkill_deletes_the_slot (s : ResumeEditor.State) (index : nat) :
  let xs := ResumeEditor.skills (ResumeEditor.editData s) in
  let ys := ResumeEditor.skills (ResumeEditor.editData (ResumeEditor.removeSkill index s)) in
  hole_free ys /\
  (hole_free xs -> ys = delete index xs) /\
  (hole_free xs -> (length xs <= index)%nat -> ys = xs).
Proof.
  cbv zeta. unfold ResumeEditor.removeSkill.
  cbn -[ResumeEditor.remove_slot].
  split; [apply remove_slot_no_hole | ].
  split; [apply remove_slot_delete | ].
  intros Hfree Hge. rewrite remove_slot_delete by exact Hfree.
  rewrite delete_take_drop, take_ge, drop_ge by lia. apply app_nil_r.
Qed.

Lemma removeSkill_deletes_the_slot_witness :
  ResumeEditor.skills (ResumeEditor.editData (ResumeEditor.removeSkill 0 editing0)) = [] /\
  ResumeEditor.skills (ResumeEditor.editData (ResumeEditor.removeSkill 5 editing0))
  = ResumeEditor.skills (ResumeEditor.editData editing0).
Proof.
  split.
  - destruct (removeSkill_deletes_the_slot editing0 0) as (_ & Hdelete & _).
    cbv zeta in Hdelete. rewrite (Hdelete editing0_hole_free). reflexivity.
  - destruct (removeSkill_deletes_the_slot editing0 5) as (_ & _ & Hpast).
    apply Hpast; [exact editing0_hole_free | vm_compute; lia].
Defined.

(** ** Adding and removing a row *)

(** Reading rows after the heap has grown at its end. *)
Lemma rows_after_growth (h : ResumeEditor.heap) (e : ResumeEditor.entry)
    (rows : list ResumeEditor.loc) :
  Forall (fun l => (l < length h)%nat) rows ->
  (fun l => (h ++ [e]) !! l) <$> rows = (fun l => h !! l) <$> rows.
Proof.
  intros Hlt. apply Forall_fmap_ext.
  eapply Forall_impl; [exact Hlt | ]. cbn. intros l Hl. apply lookup_app_l. exact Hl.
Qed.

Lemma addExperience_row (s : ResumeEditor.State) :
  well_formed s ->
  let s' := ResumeEditor.addExperience s in
  ResumeEditor.v_experience (current_draft s')
  = ResumeEditor.v_experience (current_draft s) ++ [Some blank_experience] /\
  ResumeEditor.v_education (current_draft s')
  = ResumeEditor.v_education (current_draft s) /\
  ResumeEditor.draft_value (ResumeEditor.objects s') (ResumeEditor.editData s)
  = current_draft s.
Proof.
  intros Hwf s'. pose proof Hwf as [_ Hlt].
  unfold refs in Hlt. apply Forall_app in Hlt as [Hexp Hedu].
  subst s'. unfold current_draft, ResumeEditor.addExperience, ResumeEditor.draft_value.
  cbn -[blank_experience]. rewrite fmap_app.
  rewrite !(rows_after_growth _ _ _ Hexp), !(rows_after_growth _ _ _ Hedu).
  split; [ | split; reflexivity ].
  cbn. f_equal. f_equal. apply list_lookup_middle. reflexivity.
Qed.

Lemma addEducation_row (s : ResumeEditor.State) :
  well_formed s ->
  let s' := ResumeEditor.addEducation s in
  ResumeEditor.v_education (current_draft s')
  = ResumeEditor.v_education (current_draft s) ++ [Some blank_education] /\
  ResumeEditor.v_experience (current_draft s')
  = ResumeEditor.v_experience (current_draft s) /\
  ResumeEditor.draft_value (ResumeEditor.objects s') (ResumeEditor.editData s)
  = current_draft s.
Proof.
  intros Hwf s'. pose proof Hwf as [_ Hlt].
  unfold refs in Hlt. apply Forall_app in Hlt as [Hexp Hedu].
  subst s'. unfold current_draft, ResumeEditor.addEducation, ResumeEditor.draft_value.
  cbn -[blank_education]. rewrite fmap_app.
  rewrite !(rows_after_growth _ _ _ Hexp), !(rows_after_growth _ _ _ Hedu).
  split; [ | split; reflexivity ].
  cbn. f_equal. f_equal. apply list_lookup_middle. reflexivity.
Qed.

(** X7. On a well-formed draft, [addExperience] and [addEducation] each
    append one blank row (every property the empty string) to their own
    array of what the new draft denotes, and leave the other array and
    every existing row as they were; what the previous draft denotes is
    unchanged too, since the new row is a new object. *)
Theorem adding_appends_a_blank_row (s : ResumeEditor.State) :
  well_formed s ->
  let s1 := ResumeEditor.addExperience s in
  let s2 := ResumeEditor.addEducation s in
  (ResumeEditor.v_experience (current_draft s1)
   = ResumeEditor.v_experience (current_draft s) ++ [Some blank_experience] /\
   ResumeEditor.v_education (current_draft s1)
   = ResumeEditor.v_education (current_draft s) /\
   ResumeEditor.draft_value (ResumeEditor.objects s1) (ResumeEditor.editData s)
   = current_draft s) /\
  (ResumeEditor.v_education (current_draft s2)
   = ResumeEditor.v_education (current_draft s) ++ [Some blank_education] /\
   ResumeEditor.v_experience (current_draft s2)
   = ResumeEditor.v_experience (current_draft s) /\
   ResumeEditor.draft_value (ResumeEditor.objects s2) (ResumeEditor.editData s)
   = current_draft s).
Proof.
  intros Hwf s1 s2. split.
  - apply (addExperience_row s Hwf).
  - apply (addEducation_row s Hwf).
Qed.

Lemma adding_appends_a_blank_row_witness :
  well_formed editing0 /\
  ResumeEditor.v_experience (current_draft (ResumeEditor.addExperience editing0))
  = ResumeEditor.v_experience (current_draft editing0) ++ [Some blank_experience] /\
  ResumeEditor.v_education (current_draft (ResumeEditor.addEducation editing0))
  = ResumeEditor.v_education (current_draft editing0) ++ [Some blank_education].
Proof.
  split; [exact editing0_well_formed | ].
  destruct (adding_appends_a_blank_row editing0 editing0_well_formed)
    as [(Hexp & _) (Hedu & _)].
  split; [exact Hexp | exact Hedu].
Defined.

(** X8. [removeExperience(index)] and [removeEducation(index)] delete
    exactly the row at [index] from their own array of what the draft
    denotes and leave the other array and all objects as they were;
    with [index] past the end of the array the draft denotes what it
    did. *)
Theorem removing_deletes_the_row (s : ResumeEditor.State) (index : nat) :
  let s1 := ResumeEditor.removeExperience index s in
  let s2 := ResumeEditor.removeEducation index s in
  (ResumeEditor.v_experience (current_draft s1)
   = delete index (ResumeEditor.v_experience (current_draft s)) /\
   ResumeEditor.v_education (current_draft s1)
   = ResumeEditor.v_education (current_draft s) /\
   ResumeEditor.objects s1 = ResumeEditor.objects s /\
   ((length (ResumeEditor.experience (ResumeEditor.editData s)) <= index)%nat ->
    current_draft s1 = current_draft s)) /\
  (ResumeEditor.v_education (current_draft s2)
   = delete index (ResumeEditor.v_education (current_draft s)) /\
   ResumeEditor.v_experience (current_draft s2)
   = ResumeEditor.v_experience (current_draft s) /\
   ResumeEditor.objects s2 = ResumeEditor.objects s /\
   ((length (ResumeEditor.education (ResumeEditor.editData s)) <= index)%nat ->
    current_draft s2 = current_draft s)).
Proof.
  cbv zeta.
  unfold current_draft, ResumeEditor.removeExperience, ResumeEditor.removeEducation,
    ResumeEditor.draft_value.
  cbn. rewrite !remove_at_delete.
  split; (split; [ | split; [reflexivity | split; [reflexivity | ] ] ]).
  - rewrite !delete_take_drop, fmap_app, fmap_take, fmap_drop. reflexivity.
  - intros Hge. rewrite delete_take_drop, take_ge, drop_ge by lia.
    rewrite app_nil_r. reflexivity.
  - rewrite !delete_take_drop, fmap_app, fmap_take, fmap_drop. reflexivity.
  - intros Hge. rewrite delete_take_drop, take_ge, drop_ge by lia.
    rewrite app_nil_r. reflexivity.
Qed.

Lemma removing_deletes_the_row_witness :
  current_draft (ResumeEditor.removeExperience 4 editing0) = current_draft editing0 /\
  current_draft (ResumeEditor.removeEducation 4 editing0) = current_draft editing0.
Proof.
  destruct (removing_deletes_the_row editing0 4)
    as [(_ & _ & _ & Hexp) (_ & _ & _ & Hedu)].
  split; [apply Hexp | apply Hedu]; vm_compute; lia.
Defined.

(** ** Saving, cancelling, and a missing token *)

(** X9. [handleSave] does nothing at all while no résumé is loaded.
    With a résumé loaded and the PUT rejected, it shows the reply's
    [detail] (or the default message) and ends with [saving] off:
    nothing else of the state changes, so the editor stays in whatever
    edit mode it was in with its draft, and no reload is requested.
    With the PUT fulfilled and the reload fulfilled with a résumé, the
    editor leaves edit mode and its draft denotes the reloaded reply. *)
Theorem handleSave_leaves_edit_mode_on_success_only (w : World ResumeEditor.State)
    (rSave : Reply json) (rResume : Reply (option (ResumeEditor.Resume ResumeEditor.entry)))
    (r : ResumeEditor.Resume ResumeEditor.loc) (e : AxiosError) (saved : json)
    (d : ResumeEditor.Resume ResumeEditor.entry) :
  (ResumeEditor.resume (view w) = None ->
   exec (ResumeEditor.handleSave rSave rResume) w = w) /\
  (ResumeEditor.resume (view w) = Some r ->
   exec (ResumeEditor.handleSave (Rejected e) rResume) w
   = mkWorld (storage w) (user w) (ResumeEditor.setSaving false (view w))
       (trace w ++
        [Http (ResumeEditor_save (storage w !! "token") (ResumeEditor.id r)
                 (ResumeEditor.editData_json (ResumeEditor.objects (view w))
                                             (ResumeEditor.editData (view w))));
         Toast Error (or_else (error_data e "detail") (JStr "Failed to save resume"))
               None])) /\
  (ResumeEditor.resume (view w) = Some r ->
   ResumeEditor.no_token (storage w !! "token") = false ->
   let s' := view (exec (ResumeEditor.handleSave (Fulfilled saved)
                           (Fulfilled (Some d))) w) in
   ResumeEditor.editing s' = false /\
   ResumeEditor.saving s' = false /\
   current_draft s' = reply_draft d).
Proof.
  split; [ | split ].
  - intros Hres. unfold ResumeEditor.handleSave. run. rewrite Hres. run.
    destruct w. reflexivity.
  - intros Hres. unfold ResumeEditor.handleSave. run. rewrite Hres. run.
    rewrite <- app_assoc. reflexivity.
  - intros Hres Htok. cbv zeta.
    unfold ResumeEditor.handleSave, ResumeEditor.fetchResume,
      ResumeEditor.fetchResume_send, ResumeEditor.fetchResume_settle.
    run. rewrite Hres. run. rewrite Htok. run.
    pose proof (load_spec d (ResumeEditor.objects (view w))) as H.
    cbn [ResumeEditor.objects ResumeEditor.setEditing ResumeEditor.setSaving].
    destruct (ResumeEditor.load d (ResumeEditor.objects (view w))) as [r' h].
    destruct H as (_ & Hval & _). run.
    split; [reflexivity | ]. split; [reflexivity | exact Hval].
Qed.

Lemma handleSave_leaves_edit_mode_on_success_only_witness :
  exec (ResumeEditor.handleSave (Rejected refused) (Rejected server_down)) editor0
  = editor0 /\
  ResumeEditor.editData
    (view (exec (ResumeEditor.handleSave (Rejected refused) (Rejected server_down))
             editor_with_resume))
  = ResumeEditor.editData editing0 /\
  current_draft
    (view (exec (ResumeEditor.handleSave (Fulfilled JNull) (Fulfilled (Some sample_resume)))
             editor_with_resume))
  = reply_draft sample_resume.
Proof.
  destruct (handleSave_leaves_edit_mode_on_success_only editor0
              (Rejected refused) (Rejected server_down)
              (ResumeEditor.mkResume None None) refused JNull sample_resume)
    as (Hnone & _ & _).
  destruct (handleSave_leaves_edit_mode_on_success_only editor_with_resume
              (Rejected refused) (Rejected server_down)
              (ResumeEditor.mkResume (Some (JNum 7))
                 (Some (ResumeEditor.mkParsedData
                          (Some "Ada") (Some "ada@example.org") None None
                          (Some ["Rocq"]) (Some [0%nat]) (Some [1%nat]) None)))
              refused JNull sample_resume)
    as (_ & Hrejected & Hfulfilled).
  split; [apply Hnone; reflexivity | ].
  split.
  - rewrite Hrejected by reflexivity. reflexivity.
  - apply Hfulfilled; reflexivity.
Defined.

(** X10. The Cancel button, with a token stored: when the reload is
    fulfilled with a résumé the editor is out of edit mode and its
    draft denotes the reply, so the edits are discarded. When the
    reload is fulfilled without a résumé or is rejected, the editor is
    out of edit mode and everything else of its state, the edited draft
    included, is as it was. *)
Theorem onCancel_reloads_or_keeps_the_draft (w : World ResumeEditor.State)
    (d : ResumeEditor.Resume ResumeEditor.entry) (e : AxiosError) :
  ResumeEditor.no_token (storage w !! "token") = false ->
  let loaded := view (exec (ResumeEditorView.onCancel (Fulfilled (Some d))) w) in
  let empty := view (exec (ResumeEditorView.onCancel (Fulfilled None)) w) in
  let failed := view (exec (ResumeEditorView.onCancel (Rejected e)) w) in
  (ResumeEditor.editing loaded = false /\ current_draft loaded = reply_draft d) /\
  (empty = ResumeEditor.setEditing false (view w)) /\
  (failed = ResumeEditor.setEditing false (view w)).
Proof.
  intros Htok loaded empty failed. subst loaded empty failed.
  unfold ResumeEditorView.onCancel, ResumeEditor.fetchResume,
    ResumeEditor.fetchResume_send, ResumeEditor.fetchResume_settle.
  run. rewrite Htok. run.
  split; [ | split ].
  - pose proof (load_spec d (ResumeEditor.objects (view w))) as H.
    cbn [ResumeEditor.objects ResumeEditor.setEditing].
    destruct (ResumeEditor.load d (ResumeEditor.objects (view w))) as [r h].
    destruct H as (_ & Hval & _). run. split; [reflexivity | exact Hval].
  - reflexivity.
  - destruct (is_401 e); reflexivity.
Qed.

Lemma onCancel_reloads_or_keeps_the_draft_witness :
  ResumeEditor.no_token (storage editor_with_resume !! "token") = false /\
  current_draft
    (view (exec (ResumeEditorView.onCancel (Fulfilled (Some sample_resume)))
             editor_with_resume))
  = reply_draft sample_resume /\
  view (exec (ResumeEditorView.onCancel (Rejected server_down)) editor_with_resume)
  = ResumeEditor.setEditing false editing0.
Proof.
  split; [reflexivity | ].
  destruct (onCancel_reloads_or_keeps_the_draft editor_with_resume sample_resume
              server_down eq_refl) as ((_ & Hloaded) & _ & Hfailed).
  split; [exact Hloaded | exact Hfailed].
Defined.

(** X11. Without a usable token ([getItem] gives null or the empty
    string), [fetchResume] and the upload check the token and send no
    request: [fetchResume] shows [Please log in to continue] and
    navigates to [/login]; an upload of a file of an allowed type shows
    [Authentication required], navigates to [/login] and leaves
    [uploading] switched on, since the early return skips the block
    that resets it. Storage is untouched in both. [handleSave] does not
    check the token: with a résumé loaded it sends its PUT all the
    same, under [Bearer null] when no token is stored, and that PUT is
    its only request, since the reload after a fulfilled save is
    stopped by the check of [fetchResume]. *)
Theorem editor_without_token_still_saves (w : World ResumeEditor.State)
    (file : File) (files : list File) (rUpload rSave : Reply json)
    (rResume : Reply (option (ResumeEditor.Resume ResumeEditor.entry)))
    (r : ResumeEditor.Resume ResumeEditor.loc) :
  ResumeEditor.no_token (storage w !! "token") = true ->
  file_type file ∈ ResumeEditor.allowedTypes ->
  (exec (ResumeEditor.fetchResume rResume) w
   = mkWorld (storage w) (user w) (view w)
       (trace w ++ [Toast Error (JStr "Please log in to continue") None;
                    Navigate "/login"])) /\
  (exec (ResumeEditor.handleFileUpload (file :: files) rUpload rResume) w
   = mkWorld (storage w) (user w) (ResumeEditor.setUploading true (view w))
       (trace w ++ [Toast Error (JStr "Authentication required") None;
                    Navigate "/login"])) /\
  (ResumeEditor.resume (view w) = Some r ->
   requests (added w (exec (ResumeEditor.handleSave rSave rResume) w))
   = [ResumeEditor_save (storage w !! "token") (ResumeEditor.id r)
        (ResumeEditor.editData_json (ResumeEditor.objects (view w))
                                    (ResumeEditor.editData (view w)))]) /\
  (storage w !! "token" = None ->
   headers (ResumeEditor_save (storage w !! "token") (ResumeEditor.id r)
              (ResumeEditor.editData_json (ResumeEditor.objects (view w))
                                          (ResumeEditor.editData (view w))))
     !! "Authorization"
   = Some "Bearer null").
Proof.
  intros Htok Hty. split; [ | split; [ | split ] ].
  - unfold ResumeEditor.fetchResume, ResumeEditor.fetchResume_send,
      ResumeEditor.fetchResume_settle.
    run. rewrite Htok. run. rewrite <- app_assoc. reflexivity.
  - unfold ResumeEditor.handleFileUpload. cbn [head].
    rewrite bool_decide_eq_true_2 by exact Hty. cbn [negb].
    run. rewrite Htok. run. rewrite <- app_assoc. reflexivity.
  - intros Hres. unfold added, ResumeEditor.handleSave, ResumeEditor.fetchResume,
      ResumeEditor.fetchResume_send, ResumeEditor.fetchResume_settle.
    run. rewrite Hres. run.
    destruct rSave as [saved | e]; run; try rewrite Htok; run;
      repeat rewrite <- app_assoc; rewrite drop_app_length; reflexivity.
  - intros Hnone. rewrite Hnone. reflexivity.
Qed.

Lemma editor_without_token_still_saves_witness :
  requests
    (trace (exec (ResumeEditor.handleFileUpload [pdf] (Rejected server_down)
                    (Rejected server_down))
              (mkWorld ∅ JNull ResumeEditor.initial [])))
  = [] /\
  ResumeEditor.uploading
    (view (exec (ResumeEditor.handleFileUpload [pdf] (Rejected server_down)
                   (Rejected server_down))
             (mkWorld ∅ JNull ResumeEditor.initial [])))
  = true /\
  (method <$> requests
     (added (mkWorld ∅ JNull editing0 [])
        (exec (ResumeEditor.handleSave (Fulfilled JNull) (Rejected server_down))
           (mkWorld ∅ JNull editing0 []))))
  = [PUT].
Proof.
  assert (Hpdf : file_type pdf ∈ ResumeEditor.allowedTypes) by (repeat constructor).
  assert (Htok : ResumeEditor.no_token
                   (storage (mkWorld ∅ JNull ResumeEditor.initial []) !! "token") = true)
    by (vm_compute; reflexivity).
  assert (Htok' : ResumeEditor.no_token
                    (storage (mkWorld ∅ JNull editing0 []) !! "token") = true)
    by (vm_compute; reflexivity).
  destruct (editor_without_token_still_saves
              (mkWorld ∅ JNull ResumeEditor.initial []) pdf []
              (Rejected server_down) (Rejected server_down) (Rejected server_down)
              (ResumeEditor.mkResume None None) Htok Hpdf)
    as (_ & Hupload & _).
  destruct (editor_without_token_still_saves
              (mkWorld ∅ JNull editing0 []) pdf []
              (Rejected server_down) (Fulfilled JNull) (Rejected server_down)
              (ResumeEditor.mkResume (Some (JNum 7))
                 (Some (ResumeEditor.mkParsedData
                          (Some "Ada") (Some "ada@example.org") None None
                          (Some ["Rocq"]) (Some [0%nat]) (Some [1%nat]) None)))
              Htok' Hpdf)
    as (_ & _ & Hsave & _).
  rewrite Hupload. split; [reflexivity | ]. split; [reflexivity | ].
  rewrite Hsave by reflexivity. reflexivity.
Defined.

(** * The session across logout, reload and redirects *)

(** X12. [handleLogout] of the layout removes the token and the user
    entries and no other entry of storage, sets the user to null,
    leaves the page's own state alone and navigates to [/login]
    afterwards. After it the route guard redirects to [/login] and the
    [/login] route shows the login page. *)
Theorem handleLogout_ends_the_session {S} (w : World S) :
  let w' := exec Layout.handleLogout w in
  session_cleared w' /\
  (forall k, k <> "token" -> k <> "user" -> storage w' !! k = storage w !! k) /\
  user w' = JNull /\
  view w' = view w /\
  trace w' = trace w ++ [RemoveItem "token"; RemoveItem "user"; Navigate "/login"] /\
  App.ProtectedRoute (storage w') = App.Redirect "/login" /\
  AppShell.login_route (user w') = AppShell.LoginPage.
Proof.
  cbv zeta. unfold Layout.handleLogout, App.logout, session_cleared, App.ProtectedRoute.
  run.
  assert (Htoken : delete "user" (delete "token" (storage w)) !! "token" = None)
    by (rewrite lookup_delete_ne by discriminate; apply lookup_delete_eq).
  rewrite Htoken.
  split; [split; [reflexivity | apply lookup_delete_eq] | ].
  split; [intros k H1 H2; rewrite !lookup_delete_ne by congruence; reflexivity | ].
  repeat split. repeat rewrite <- app_assoc. reflexivity.
Qed.

Lemma handleLogout_ends_the_session_witness :
  storage (exec Layout.handleLogout themed) !! "theme" = Some "dark".
Proof.
  destruct (handleLogout_ends_the_session themed) as (_ & Hother & _).
  rewrite (Hother "theme") by discriminate. reflexivity.
Defined.

(** X13. Starting from storage without a token and a user entry,
    [login] followed by the layout's [handleLogout] leaves storage
    exactly as it was, the user null and the page's state unchanged,
    whatever token and user were logged in. *)
Theorem logout_undoes_login {S} (token userData : json) (w : World S) :
  storage w !! "token" = None ->
  storage w !! "user" = None ->
  let w' := exec (App.login token userData;; Layout.handleLogout) w in
  storage w' = storage w /\ user w' = JNull /\ view w' = view w.
Proof.
  intros Htoken Huser. cbv zeta.
  unfold Layout.handleLogout, App.logout, App.login. run.
  split; [ | split; reflexivity ].
  apply map_eq. intros k.
  destruct (decide (k = "user")) as [-> | Hu];
    [rewrite lookup_delete_eq, Huser; reflexivity | ].
  rewrite lookup_delete_ne by congruence.
  destruct (decide (k = "token")) as [-> | Ht];
    [rewrite lookup_delete_eq, Htoken; reflexivity | ].
  rewrite lookup_delete_ne by congruence.
  rewrite !lookup_insert_ne by congruence. reflexivity.
Qed.

Lemma logout_undoes_login_witness :
  storage (exec (App.login (JStr "abc") issued_user;; Layout.handleLogout) login0)
  = storage login0.
Proof.
  apply (logout_undoes_login (JStr "abc") issued_user login0); reflexivity.
Defined.

Lemma pretty_N_go_nonempty (x : N) (s : string) :
  s <> "" -> pretty_N_go x s <> "".
Proof.
  revert s. induction (N.lt_wf_0 x) as [x _ IH]. intros s Hs.
  destruct (decide (x = 0)%N) as [-> | Hx].
  - rewrite pretty_N_go_0. exact Hs.
  - rewrite pretty_N_go_step by lia. apply IH.
    + apply N.div_lt; lia.
    + discriminate.
Qed.

Lemma pretty_N_nonempty (x : N) : pretty x <> "".
Proof.
  unfold pretty, pretty_N. destruct (decide (x = 0)%N) as [-> | Hx]; [discriminate | ].
  rewrite pretty_N_go_step by lia. apply pretty_N_go_nonempty. discriminate.
Qed.

Lemma pretty_Z_nonempty (n : Z) : pretty n <> "".
Proof.
  destruct n as [ | p | p]; unfold pretty, pretty_Z.
  - discriminate.
  - apply pretty_N_nonempty.
  - discriminate.
Qed.

(** What [JSON.stringify] writes is never the empty text. *)
Lemma stringify_nonempty (j : json) : stringify j <> "".
Proof.
  destruct j as [ | [ | ] | n | s | xs | props]; cbn; try discriminate.
  apply pretty_Z_nonempty.
Qed.

Lemma present_Some (t : string) : t <> "" -> AppShell.present (Some t) = true.
Proof.
  intros Ht. cbn. destruct (String.eqb_spec t ""); [contradiction | reflexivity].
Qed.

(** X14. A reload after a login restores the user: when the token's
    text is not empty and [JSON.parse] reads back what
    [JSON.stringify] wrote for the user, the mount effect run on the
    storage that [login] left, with the component state as at page
    load (user null, loading on), sets the user to the one logged in
    and switches loading off, and writes nothing. The stored user text
    is never empty, so the effect always takes the restoring branch. *)
Theorem reload_restores_the_user (parse : string -> AppShell.SyntaxError + json)
    (token userData : json) (w : World bool) :
  to_string token <> "" ->
  parse (stringify userData) = inr userData ->
  let stored := storage (exec (App.login token userData) w) in
  AppShell.restore parse (mkWorld stored JNull true [])
  = (inr tt, mkWorld stored userData false []).
Proof.
  intros Htoken Hparse stored. subst stored.
  rewrite login_persists. cbn [storage]. unfold AppShell.restore. run.
  rewrite lookup_insert_ne by discriminate. rewrite !lookup_insert_eq.
  rewrite (present_Some _ Htoken), (present_Some _ (stringify_nonempty userData)).
  cbn [andb default from_option id]. rewrite Hparse. reflexivity.
Qed.

Lemma reload_restores_the_user_witness :
  user (AppShell.restore parse_issued
          (mkWorld (storage (exec (App.login (JStr "abc") issued_user) app0))
                   JNull true [])).2
  = issued_user.
Proof.
  assert (Htoken : to_string (JStr "abc") <> "") by discriminate.
  assert (Hparse : parse_issued (stringify issued_user) = inr issued_user)
    by (vm_compute; reflexivity).
  pose proof (reload_restores_the_user parse_issued (JStr "abc") issued_user app0
                Htoken Hparse) as H.
  cbv zeta in H. rewrite H. reflexivity.
Defined.

(** X15. When storage holds a non-empty token and a non-empty user text
    that [JSON.parse] rejects, the mount effect ends with the
    SyntaxError and changes nothing: no user is set and
    [setLoading(false)] is not reached, so the state stays at loading
    and storage keeps both entries. *)
Theorem restore_stops_at_unreadable_user
    (parse : string -> AppShell.SyntaxError + json) (w : World bool)
    (t u : string) (e : AppShell.SyntaxError) :
  storage w !! "token" = Some t -> t <> "" ->
  storage w !! "user" = Some u -> u <> "" ->
  parse u = inl e ->
  AppShell.restore parse w = (inl e, w).
Proof.
  intros Ht Hne Hu Hne' Hparse. unfold AppShell.restore. run.
  rewrite Ht, Hu, (present_Some _ Hne), (present_Some _ Hne').
  cbn [andb default from_option id]. rewrite Hparse. reflexivity.
Qed.

Lemma restore_stops_at_unreadable_user_witness :
  view (AppShell.restore parse_issued broken_user).2 = true.
Proof.
  assert (Ht : storage broken_user !! "token" = Some "t0k3n") by reflexivity.
  assert (Hu : storage broken_user !! "user" = Some "{oops") by reflexivity.
  assert (Hne : "t0k3n" <> "") by discriminate.
  assert (Hne' : "{oops" <> "") by discriminate.
  assert (Hparse : parse_issued "{oops" = inl AppShell.syntax_error)
    by (vm_compute; reflexivity).
  rewrite (restore_stops_at_unreadable_user parse_issued broken_user
             "t0k3n" "{oops" AppShell.syntax_error Ht Hne Hu Hne' Hparse).
  reflexivity.
Defined.

(** X16. When storage holds a non-empty token and no user entry, the
    mount effect sets no user and switches loading off. The route guard
    then lets the protected pages through, since it looks at the token
    alone, while the [/login] route still shows the login page, since
    it looks at the user alone. *)
Theorem token_without_user_passes_the_guard
    (parse : string -> AppShell.SyntaxError + json)
    (stored : gmap string string) (t : string) :
  stored !! "token" = Some t -> t <> "" ->
  stored !! "user" = None ->
  let after := (AppShell.restore parse (mkWorld stored JNull true [])).2 in
  after = mkWorld stored JNull false [] /\
  App.ProtectedRoute (storage after) = App.Children /\
  AppShell.login_route (user after) = AppShell.LoginPage.
Proof.
  intros Ht Hne Hu after.
  assert (Hafter : after = mkWorld stored JNull false []).
  { subst after. unfold AppShell.restore. run.
    rewrite Ht, Hu, (present_Some _ Hne). reflexivity. }
  rewrite Hafter. split; [reflexivity | ]. split; [ | reflexivity].
  unfold App.ProtectedRoute. cbn [storage]. rewrite Ht.
  destruct (String.eqb_spec t ""); [contradiction | reflexivity].
Qed.

Lemma token_without_user_passes_the_guard_witness :
  App.ProtectedRoute
    (storage (AppShell.restore parse_issued (mkWorld token_only JNull true [])).2)
  = App.Children.
Proof.
  assert (Ht : token_only !! "token" = Some "t0k3n") by reflexivity.
  assert (Hu : token_only !! "user" = None) by reflexivity.
  assert (Hne : "t0k3n" <> "") by discriminate.
  destruct (token_without_user_passes_the_guard parse_issued token_only "t0k3n"
              Ht Hne Hu) as (_ & Hguard & _).
  exact Hguard.
Defined.

(** X17. The editor's redirect on a 401 does not end at the login page
    while a user is logged in: [fetchResume] navigates to [/login] last,
    but it has cleared neither the user nor the token, so the [/login]
    route answers with a redirect to [/] and the route guard lets the
    protected page through. *)
Theorem unauthorized_redirect_bounces_back (w : World ResumeEditor.State)
    (e : AxiosError) :
  is_401 e = true ->
  ResumeEditor.no_token (storage w !! "token") = false ->
  truthy (Some (user w)) = true ->
  let w' := exec (ResumeEditor.fetchResume (Rejected e)) w in
  last (trace w') = Some (Navigate "/login") /\
  AppShell.login_route (user w') = AppShell.NavigateTo "/" /\
  App.ProtectedRoute (storage w') = App.Children.
Proof.
  intros H401 Htok Huser w'. subst w'.
  unfold ResumeEditor.fetchResume, ResumeEditor.fetchResume_send,
    ResumeEditor.fetchResume_settle.
  run. rewrite Htok. run. rewrite H401. run.
  split; [apply last_snoc | ].
  split; [unfold AppShell.login_route; rewrite Huser; reflexivity | ].
  unfold App.ProtectedRoute. unfold ResumeEditor.no_token in Htok.
  destruct (storage w !! "token") as [t | ]; [ | discriminate].
  rewrite Htok. reflexivity.
Qed.

Lemma unauthorized_redirect_bounces_back_witness :
  AppShell.login_route
    (user (exec (ResumeEditor.fetchResume (Rejected unauthorized)) editor0))
  = AppShell.NavigateTo "/".
Proof.
  assert (H401 : is_401 unauthorized = true) by reflexivity.
  assert (Htok : ResumeEditor.no_token (storage editor0 !! "token") = false)
    by reflexivity.
  assert (Huser : truthy (Some (user editor0)) = true) by reflexivity.
  destruct (unauthorized_redirect_bounces_back editor0 unauthorized H401 Htok Huser)
    as (_ & Hroute & _).
  exact Hroute.
Defined.

(** X18. Without a stored token, the fetches of the Jobs, Applications
    and Dashboard pages are sent all the same, each with the header
    [Authorization: Bearer null]; unlike the editor, none of them
    checks the token first, and [fetchJobs] does not navigate to
    [/login] whatever the reply is. *)
Theorem views_without_token_send_bearer_null
    (wj : World Jobs.State) (wa : World Applications.State)
    (wd : World Dashboard.State) (r r1 r2 r3 : Reply json) :
  storage wj !! "token" = None ->
  storage wa !! "token" = None ->
  storage wd !! "token" = None ->
  requests (added wj (exec (Jobs.fetchJobs r) wj)) = [Jobs_fetch None] /\
  requests (added wa (exec (Applications.fetchApplications r) wa))
  = [Applications_fetch None] /\
  requests (added wd (exec (Dashboard.fetchData r1 r2 r3) wd))
  = Dashboard_fetches None /\
  Forall (fun q => headers q !! "Authorization" = Some "Bearer null")
         (Jobs_fetch None :: Applications_fetch None :: Dashboard_fetches None) /\
  Navigate "/login" ∉ added wj (exec (Jobs.fetchJobs r) wj).
Proof.
  intros Hj Ha Hd. unfold added.
  split; [ | split; [ | split; [ | split ] ] ].
  - unfold Jobs.fetchJobs, Jobs.setJobs. run. rewrite Hj.
    destruct r; run; repeat rewrite <- app_assoc; rewrite drop_app_length; reflexivity.
  - unfold Applications.fetchApplications, Applications.setApplications. run.
    rewrite Ha.
    destruct r; run; repeat rewrite <- app_assoc; rewrite drop_app_length; reflexivity.
  - unfold Dashboard.fetchData, Dashboard.setStats, Dashboard.setResume,
      Dashboard.setRecentApplications. run. rewrite Hd.
    destruct r1, r2, r3; run; try destruct (Dashboard.slice_0_5 _); run;
      repeat rewrite <- app_assoc; rewrite drop_app_length; reflexivity.
  - repeat constructor.
  - unfold Jobs.fetchJobs, Jobs.setJobs. run.
    destruct r; run; repeat rewrite <- app_assoc; rewrite drop_app_length;
      intros Hin; repeat (apply elem_of_cons in Hin as [Hin | Hin]; [discriminate | ]);
      apply elem_of_nil in Hin; exact Hin.
Qed.

Lemma views_without_token_send_bearer_null_witness :
  requests (added no_session (exec (Jobs.fetchJobs (Rejected unauthorized)) no_session))
  = [Jobs_fetch None].
Proof.
  assert (Hj : storage no_session !! "token" = None) by reflexivity.
  assert (Ha : storage (mkWorld ∅ JNull Applications.initial []) !! "token" = None)
    by reflexivity.
  assert (Hd : storage (mkWorld ∅ JNull Dashboard.initial []) !! "token" = None)
    by reflexivity.
  destruct (views_without_token_send_bearer_null no_session
              (mkWorld ∅ JNull Applications.initial [])
              (mkWorld ∅ JNull Dashboard.initial [])
              (Rejected unauthorized) (Rejected unauthorized) (Rejected unauthorized)
              (Rejected unauthorized) Hj Ha Hd) as (Hjobs & _).
  exact Hjobs.
Defined.

(** * The pages: Dashboard, Jobs, Applications, detail and Login *)

(** ** The Dashboard *)

(** X19. [fetchData] sets nothing unless all three requests are
    fulfilled: when any one of them is rejected, all three requests
    have still been sent, and the only other effect is one line on the
    console, so the stats, the résumé and the recent applications are
    as before even where their own request was fulfilled. When all
    three are fulfilled but the applications body has no [slice] (it
    is neither an array nor a string), the stats and the résumé are set
    and the recent applications are not. *)
Theorem fetchData_sets_nothing_on_a_rejection (w : World Dashboard.State)
    (r1 r2 r3 : Reply json) (s r a : json) :
  (rejected r1 \/ rejected r2 \/ rejected r3 ->
   exec (Dashboard.fetchData r1 r2 r3) w
   = mkWorld (storage w) (user w) (view w)
       (trace w ++ (Http <$> Dashboard_fetches (storage w !! "token"))
                ++ [ConsoleError "Error fetching data:"])) /\
  (Dashboard.slice_0_5 a = inl type_error ->
   exec (Dashboard.fetchData (Fulfilled s) (Fulfilled r) (Fulfilled a)) w
   = mkWorld (storage w) (user w)
       (Dashboard.mkState s r (Dashboard.uploading (view w))
                          (Dashboard.recentApplications (view w)))
       (trace w ++ (Http <$> Dashboard_fetches (storage w !! "token"))
                ++ [ConsoleError "Error fetching data:"])).
Proof.
  split.
  - intros Hrej. unfold Dashboard.fetchData. run.
    destruct r1 as [d1 | e1], r2 as [d2 | e2], r3 as [d3 | e3];
      cbn [rejected] in Hrej; try (exfalso; tauto);
      run; repeat rewrite <- app_assoc; destruct w; reflexivity.
  - intros Hslice. unfold Dashboard.fetchData, Dashboard.setStats,
      Dashboard.setResume. run. rewrite Hslice. run.
    repeat rewrite <- app_assoc. reflexivity.
Qed.

Lemma fetchData_sets_nothing_on_a_rejection_witness :
  view (exec (Dashboard.fetchData (Fulfilled some_stats) (Rejected server_down)
                (Fulfilled (JArr some_applications))) dashboard0)
  = view dashboard0 /\
  view (exec (Dashboard.fetchData (Fulfilled some_stats) (Fulfilled five_skills)
                (Fulfilled JNull)) dashboard0)
  = Dashboard.mkState some_stats five_skills false (JArr []).
Proof.
  destruct (fetchData_sets_nothing_on_a_rejection dashboard0
              (Fulfilled some_stats) (Rejected server_down)
              (Fulfilled (JArr some_applications)) some_stats five_skills JNull)
    as [Hrejected Hslice].
  split.
  - rewrite Hrejected; [reflexivity | ]. right. left. exact I.
  - rewrite Hslice; reflexivity.
Defined.

(** X20. The Dashboard's upload handler does nothing without a chosen
    file. With a file, [uploading] is off when the handler is done,
    whatever the replies are. When the upload is rejected it shows the
    reply's [detail] or [Upload failed], sends no further request and
    leaves the stats, the résumé and the recent applications as they
    were. *)
Theorem Dashboard_upload_outcomes (w : World Dashboard.State)
    (file : File) (files : list File) (rU r1 r2 r3 : Reply json) (e : AxiosError) :
  exec (Dashboard.handleFileUpload [] rU r1 r2 r3) w = w /\
  Dashboard.uploading
    (view (exec (Dashboard.handleFileUpload (file :: files) rU r1 r2 r3) w)) = false /\
  exec (Dashboard.handleFileUpload (file :: files) (Rejected e) r1 r2 r3) w
  = mkWorld (storage w) (user w)
      (Dashboard.mkState (Dashboard.stats (view w)) (Dashboard.resume (view w)) false
                         (Dashboard.recentApplications (view w)))
      (trace w ++ [Http (Dashboard_upload (storage w !! "token") file);
                   Toast Error (or_else (error_data e "detail") (JStr "Upload failed"))
                         None]).
Proof.
  split; [destruct w; reflexivity | ]. split.
  - unfold Dashboard.handleFileUpload, Dashboard.setUploading. cbn [head]. run.
    destruct rU as [d | e']; run; [ | reflexivity].
    match goal with
    | |- context [Dashboard.fetchData r1 r2 r3 ?w1] =>
        destruct (Dashboard.fetchData r1 r2 r3 w1) as [[] w2]
    end.
    reflexivity.
  - unfold Dashboard.handleFileUpload, Dashboard.setUploading. cbn [head]. run.
    rewrite <- app_assoc. reflexivity.
Qed.

Lemma join_strings (sep : string) (ss : list string) :
  DashboardView.join sep (JStr <$> ss) = String.concat sep ss.
Proof.
  unfold DashboardView.join. f_equal.
  induction ss as [ | s ss IH]; [reflexivity | ]. cbn. f_equal. exact IH.
Qed.

(** X21. When the résumé's [parsed_data.skills] is an array of strings,
    the skills line of the résumé card shows the first three of them
    (all of them when there are fewer) joined by a comma and a space,
    and [N/A] when that text is empty: for no skills, or when the
    skills shown are one empty string. *)
Theorem skills_summary_shows_the_first_three (resume : json) (ss : list string) :
  opt_get (opt_get (Some resume) "parsed_data") "skills" = Some (JArr (JStr <$> ss)) ->
  DashboardView.skills_summary resume
  = inr (JStr (if String.eqb (String.concat ", " (take 3 ss)) ""
               then "N/A" else String.concat ", " (take 3 ss))).
Proof.
  intros Hskills. unfold DashboardView.skills_summary. rewrite Hskills.
  rewrite <- fmap_take, join_strings. unfold or_else, truthy.
  destruct (String.eqb _ ""); reflexivity.
Qed.

Lemma skills_summary_shows_the_first_three_witness :
  DashboardView.skills_summary five_skills = inr (JStr "Rocq, OCaml, Lean").
Proof.
  rewrite (skills_summary_shows_the_first_three five_skills
             ["Rocq"; "OCaml"; "Lean"; "Agda"; "Idris"] eq_refl).
  reflexivity.
Defined.

(** X22. When [stats.by_status] is an object whose [applied] and
    [interview] entries are numbers or missing, the In Progress card
    shows their sum, a missing entry counting as zero. *)
Theorem in_progress_adds_the_counts (stats : json) (bs : list (string * json))
    (a i : Z) :
  opt_get (Some stats) "by_status" = Some (JObj bs) ->
  count_of (assoc "applied" bs) = Some a ->
  count_of (assoc "interview" bs) = Some i ->
  DashboardView.in_progress stats = JNum (a + i).
Proof.
  intros Hbs Ha Hi. unfold DashboardView.in_progress, DashboardView.by_status.
  rewrite Hbs. cbn [opt_get].
  destruct (assoc "applied" bs) as [[ | | n | | | ] | ]; try discriminate;
    destruct (assoc "interview" bs) as [[ | | m | | | ] | ]; try discriminate;
    cbn in Ha, Hi; injection Ha as <-; injection Hi as <-;
    unfold or_else, truthy;
    try destruct (Z.eqb_spec n 0); try destruct (Z.eqb_spec m 0);
    subst; cbn; f_equal; lia.
Qed.

Lemma in_progress_adds_the_counts_witness :
  DashboardView.in_progress some_stats = JNum 5.
Proof.
  apply (in_progress_adds_the_counts some_stats
           [("applied", JNum 3); ("interview", JNum 2); ("rejected", JNum 1)] 3 2);
    reflexivity.
Defined.

(** ** Jobs *)

(** Runs a handler on a world given by its four parts. The projections
    are reduced along the way, so the world stays small through long
    handlers. *)
Ltac eval_handler :=
  cbv beta iota zeta delta
    [exec mbind M_bind mret M_ret emit getItem setItem removeItem setUser
     get_view set_view axios toast toast_id navigate console_error
     fst snd trace storage view user];
  repeat rewrite <- app_assoc.

(** X23. [handleSubmit] posts the form as it is and ends with [loading]
    off. When the POST is fulfilled the dialog is closed, the form is
    reset to six empty fields and the list is fetched again: the list
    becomes the fetched one, or stays as it was, with an error
    notification, when that fetch is rejected. When the POST is
    rejected the reply's [detail] (or [Failed to add job]) is shown,
    the dialog and the form keep their state and no fetch is sent. *)
Theorem handleSubmit_resets_the_form_on_success_only (w : World Jobs.State)
    (created d : json) (e e' : AxiosError) (rJobs : Reply json) :
  exec (Jobs.handleSubmit (Fulfilled created) (Fulfilled d)) w
  = mkWorld (storage w) (user w)
      (Jobs.mkState d false false (Jobs.applying (view w)) Jobs.emptyForm)
      (trace w ++ [PreventDefault;
                   Http (Jobs_create (storage w !! "token") (Jobs.formData (view w)));
                   Toast Success (JStr "Job added successfully!") None;
                   Http (Jobs_fetch (storage w !! "token"))]) /\
  exec (Jobs.handleSubmit (Fulfilled created) (Rejected e')) w
  = mkWorld (storage w) (user w)
      (Jobs.mkState (Jobs.jobs (view w)) false false (Jobs.applying (view w))
                    Jobs.emptyForm)
      (trace w ++ [PreventDefault;
                   Http (Jobs_create (storage w !! "token") (Jobs.formData (view w)));
                   Toast Success (JStr "Job added successfully!") None;
                   Http (Jobs_fetch (storage w !! "token"));
                   Toast Error (JStr "Failed to fetch jobs") None]) /\
  exec (Jobs.handleSubmit (Rejected e) rJobs) w
  = mkWorld (storage w) (user w)
      (Jobs.mkState (Jobs.jobs (view w)) false (Jobs.dialogOpen (view w))
                    (Jobs.applying (view w)) (Jobs.formData (view w)))
      (trace w ++ [PreventDefault;
                   Http (Jobs_create (storage w !! "token") (Jobs.formData (view w)));
                   Toast Error (or_else (error_data e "detail") (JStr "Failed to add job"))
                         None]).
Proof.
  destruct w as [st u s t].
  unfold Jobs.handleSubmit, Jobs.fetchJobs, Jobs.setLoading, Jobs.setDialogOpen,
    Jobs.setFormData, Jobs.setJobs.
  split; [ | split ]; eval_handler; reflexivity.
Qed.

(** X24. After a confirmed [handleDelete] the list on the page is what
    the server says, never a local edit: it becomes the fetched list
    when the DELETE and the fetch after it are fulfilled; it is left
    as it was, the deleted job included, when the DELETE is fulfilled
    and the fetch is rejected; and when the DELETE is rejected the
    state is unchanged and the DELETE is the only request. *)
Theorem handleDelete_reconciles_the_list (w : World Jobs.State)
    (jobId deleted d : json) (e e' : AxiosError) (rJobs : Reply json) :
  view (exec (Jobs.handleDelete jobId true (Fulfilled deleted) (Fulfilled d)) w)
  = Jobs.mkState d (Jobs.loading (view w)) (Jobs.dialogOpen (view w))
                 (Jobs.applying (view w)) (Jobs.formData (view w)) /\
  view (exec (Jobs.handleDelete jobId true (Fulfilled deleted) (Rejected e')) w)
  = view w /\
  view (exec (Jobs.handleDelete jobId true (Rejected e) rJobs) w) = view w /\
  requests (added w (exec (Jobs.handleDelete jobId true (Rejected e) rJobs) w))
  = [mkRequest DELETE ("http://127.0.0.1:5000/api/jobs/" +:+ to_string jobId)
       (auth_headers (storage w !! "token")) None NoBody].
Proof.
  destruct w as [st u s t].
  unfold added, Jobs.handleDelete, Jobs.fetchJobs, Jobs.setJobs. cbn [negb].
  split; [ | split; [ | split ] ]; eval_handler;
    try rewrite drop_app_length; destruct s; reflexivity.
Qed.

(** X25. [handleApply] announces the generation under the notification
    id [applying], posts an empty object to [/applications/{jobId}]
    with a timeout of two minutes, and ends with [applying] null either
    way. It navigates to [/applications] exactly when the POST is
    fulfilled; when it is rejected the same notification shows the
    reply's [detail] or [Failed to apply] and the page stays. *)
Theorem handleApply_navigates_on_success_only (w : World Jobs.State)
    (jobId created : json) (e : AxiosError) :
  exec (Jobs.handleApply jobId (Fulfilled created)) w
  = mkWorld (storage w) (user w)
      (Jobs.mkState (Jobs.jobs (view w)) (Jobs.loading (view w))
                    (Jobs.dialogOpen (view w)) JNull (Jobs.formData (view w)))
      (trace w ++
       [Toast Loading (JStr "Generating tailored resume and cover letter with AI...")
              (Some "applying");
        Http (Jobs_apply (storage w !! "token") jobId);
        Toast Success
              (JStr "Application created! Tailored resume and cover letter generated.")
              (Some "applying");
        Navigate "/applications"]) /\
  exec (Jobs.handleApply jobId (Rejected e)) w
  = mkWorld (storage w) (user w)
      (Jobs.mkState (Jobs.jobs (view w)) (Jobs.loading (view w))
                    (Jobs.dialogOpen (view w)) JNull (Jobs.formData (view w)))
      (trace w ++
       [Toast Loading (JStr "Generating tailored resume and cover letter with AI...")
              (Some "applying");
        Http (Jobs_apply (storage w !! "token") jobId);
        Toast Error (or_else (error_data e "detail") (JStr "Failed to apply"))
              (Some "applying")]).
Proof.
  destruct w as [st u s t].
  unfold Jobs.handleApply, Jobs.setApplying.
  split; eval_handler; reflexivity.
Qed.

(** ** Applications *)

Lemma status_is_has_status (f : string) (app : json) :
  app <> JNull ->
  ApplicationsView.status_is f app = inr (has_status f app).
Proof.
  intros Hnull. destruct app as [ | b | n | s | xs | props]; try reflexivity;
    [contradiction | ].
  unfold ApplicationsView.status_is, has_status. cbn [get].
  destruct (assoc "status" props) as [[ | | | | | ] | ]; reflexivity.
Qed.

Lemma filter_status_filter (f : string) (xs : list json) :
  Forall (fun app => app <> JNull) xs ->
  ApplicationsView.filter_status f xs = inr (List.filter (has_status f) xs).
Proof.
  induction 1 as [ | app xs Happ _ IH]; [reflexivity | ].
  cbn [ApplicationsView.filter_status List.filter].
  rewrite (status_is_has_status f app Happ), IH. reflexivity.
Qed.

Lemma filter_status_null (f : string) (xs : list json) :
  JNull ∈ xs -> ApplicationsView.filter_status f xs = inl type_error.
Proof.
  induction xs as [ | app xs IH]; intros Hin; [apply elem_of_nil in Hin; contradiction | ].
  cbn [ApplicationsView.filter_status].
  destruct app as [ | b | n | s | ys | props]; [reflexivity | ..];
    (rewrite status_is_has_status by discriminate;
     apply elem_of_cons in Hin as [Heq | Hin]; [discriminate | ];
     rewrite (IH Hin); reflexivity).
Qed.

(** X26. With the filter [all] the page lists the applications value
    as it is. With any other filter and an array without a null
    element it lists, in their order, exactly the elements that are
    objects whose [status] is a string equal to the filter. With any
    other filter and an array that has a null element the render
    raises a TypeError. *)
Theorem filteredApplications_keeps_the_matching (apps : json) (xs : list json)
    (f : string) :
  ApplicationsView.filteredApplications (Applications.mkState apps "all") = inr apps /\
  (f <> "all" -> Forall (fun app => app <> JNull) xs ->
   ApplicationsView.filteredApplications (Applications.mkState (JArr xs) f)
   = inr (JArr (List.filter (has_status f) xs))) /\
  (f <> "all" -> JNull ∈ xs ->
   ApplicationsView.filteredApplications (Applications.mkState (JArr xs) f)
   = inl type_error).
Proof.
  split; [reflexivity | ].
  split; intros Hf Hxs; unfold ApplicationsView.filteredApplications;
    cbn [Applications.filter Applications.applications];
    (destruct (String.eqb_spec f "all") as [ | _]; [contradiction | ]).
  - rewrite (filter_status_filter f xs Hxs). reflexivity.
  - rewrite (filter_status_null f xs Hxs). reflexivity.
Qed.

Lemma filteredApplications_keeps_the_matching_witness :
  ApplicationsView.filteredApplications
    (Applications.mkState (JArr some_applications) "applied")
  = inr (JArr [JObj [("id", JNum 1); ("status", JStr "applied")];
               JObj [("id", JNum 3); ("status", JStr "applied")]]) /\
  ApplicationsView.filteredApplications
    (Applications.mkState (JArr [JObj [("status", JStr "applied")]; JNull]) "applied")
  = inl type_error.
Proof.
  assert (Hf : "applied" <> "all") by discriminate.
  split.
  - destruct (filteredApplications_keeps_the_matching JNull some_applications "applied")
      as (_ & Hfiltered & _).
    rewrite Hfiltered; [reflexivity | exact Hf | ].
    repeat constructor; discriminate.
  - destruct (filteredApplications_keeps_the_matching JNull
                [JObj [("status", JStr "applied")]; JNull] "applied")
      as (_ & _ & Hnull).
    apply Hnull; [exact Hf | ]. repeat constructor.
Defined.

(** X27. [handleStatusUpdate] never edits the list itself. When the
    PATCH and the fetch after it are fulfilled the list becomes the
    fetched one; when the PATCH is fulfilled and the fetch is rejected
    the list, old status included, is as it was although
    [Status updated] has been shown; when the PATCH is rejected the
    state is unchanged and no fetch is sent. The filter is kept in all
    three. *)
Theorem handleStatusUpdate_reconciles_the_list (w : World Applications.State)
    (appId patched d : json) (newStatus : string) (e e' : AxiosError)
    (rApps : Reply json) :
  exec (Applications.handleStatusUpdate appId newStatus (Fulfilled patched) (Fulfilled d)) w
  = mkWorld (storage w) (user w)
      (Applications.mkState d (Applications.filter (view w)))
      (trace w ++ [Http (Applications_patch (storage w !! "token") appId newStatus);
                   Toast Success (JStr "Status updated") None;
                   Http (Applications_fetch (storage w !! "token"))]) /\
  exec (Applications.handleStatusUpdate appId newStatus (Fulfilled patched) (Rejected e')) w
  = mkWorld (storage w) (user w) (view w)
      (trace w ++ [Http (Applications_patch (storage w !! "token") appId newStatus);
                   Toast Success (JStr "Status updated") None;
                   Http (Applications_fetch (storage w !! "token"));
                   Toast Error (JStr "Failed to fetch applications") None]) /\
  exec (Applications.handleStatusUpdate appId newStatus (Rejected e) rApps) w
  = mkWorld (storage w) (user w) (view w)
      (trace w ++ [Http (Applications_patch (storage w !! "token") appId newStatus);
                   Toast Error (JStr "Failed to update status") None]).
Proof.
  destruct w as [st u s t].
  unfold Applications.handleStatusUpdate, Applications.fetchApplications,
    Applications.setApplications.
  split; [ | split ]; eval_handler; reflexivity.
Qed.

(** ** An application's detail page *)

(** X28. [fetchApplication] requests [/applications/{id}] with the
    bearer header. A fulfilled reply becomes the application shown; a
    rejected one, whatever its status, leaves the application as it
    was, shows [Failed to fetch application details] and navigates to
    [/applications]. Storage is untouched. *)
Theorem fetchApplication_returns_to_the_list_on_failure (w : World json)
    (id : string) (d : json) (e : AxiosError) :
  exec (ApplicationDetail.fetchApplication id (Fulfilled d)) w
  = mkWorld (storage w) (user w) d
      (trace w ++ [Http (ApplicationDetail_fetch (storage w !! "token") id)]) /\
  exec (ApplicationDetail.fetchApplication id (Rejected e)) w
  = mkWorld (storage w) (user w) (view w)
      (trace w ++ [Http (ApplicationDetail_fetch (storage w !! "token") id);
                   Toast Error (JStr "Failed to fetch application details") None;
                   Navigate "/applications"]).
Proof.
  destruct w as [st u s t].
  unfold ApplicationDetail.fetchApplication.
  split; eval_handler; reflexivity.
Qed.

(** X29. One successful copy sets its flag and the timer clears it
    again. Two successful copies of different documents, the second
    made before the first timer fires, leave the first flag set for
    good: the second click and its timer write the flags they saw at
    the click, where the first flag was set, so once both timers have
    fired the second flag is cleared and the first is set again. A
    copy that fails changes no flag, shows [Failed to copy] and sets no
    timer. *)
Theorem overlapping_copies_leave_a_flag_set
    (w : World ApplicationDetailView.Copied) (a b : string) :
  a <> b ->
  let first := ApplicationDetailView.copyToClipboard a true w in
  let second := ApplicationDetailView.copyToClipboard b true first.2 in
  let fired_first := exec (ApplicationDetailView.fire first.1) second.2 in
  let fired_both := exec (ApplicationDetailView.fire second.1) fired_first in
  view (exec (ApplicationDetailView.fire first.1) first.2) = <[a := false]> (view w) /\
  view second.2 = <[b := true]> (<[a := true]> (view w)) /\
  view fired_first = <[a := false]> (view w) /\
  view fired_both = <[b := false]> (<[a := true]> (view w)) /\
  view fired_both !! a = Some true /\
  ApplicationDetailView.copyToClipboard a false w
  = (None, mkWorld (storage w) (user w) (view w)
             (trace w ++ [Toast Error (JStr "Failed to copy") None])).
Proof.
  intros Hab. cbv zeta. destruct w as [st u s t].
  unfold ApplicationDetailView.copyToClipboard, ApplicationDetailView.fire.
  eval_handler.
  split; [reflexivity | ]. split; [reflexivity | ]. split; [reflexivity | ].
  split; [reflexivity | ]. split; [ | reflexivity].
  rewrite lookup_insert_ne by congruence. apply lookup_insert_eq.
Qed.

Lemma overlapping_copies_leave_a_flag_set_witness :
  let w := mkWorld session (JObj []) ApplicationDetailView.initial [] in
  let first := ApplicationDetailView.copyToClipboard "resume" true w in
  let second := ApplicationDetailView.copyToClipboard "cover" true first.2 in
  view (exec (ApplicationDetailView.fire second.1)
          (exec (ApplicationDetailView.fire first.1) second.2)) !! "resume"
  = Some true.
Proof.
  cbv zeta.
  assert (Hab : "resume" <> "cover") by discriminate.
  destruct (overlapping_copies_leave_a_flag_set
              (mkWorld session (JObj []) ApplicationDetailView.initial [])
              "resume" "cover" Hab) as (_ & _ & _ & _ & Hstuck & _).
  exact Hstuck.
Defined.

(** ** Login *)

(** X30. A rejected login or registration request writes no session:
    storage and the user are as before, the only request is the one
    POST, sent without an Authorization header, nothing navigates, the
    credentials typed in are kept and [loading] is off. The
    notification shows the reply's [message] when it has a truthy one,
    and [Login failed] or [Registration failed] otherwise. *)
Theorem rejected_login_writes_no_session (w : World Login.State) (e : AxiosError) :
  let w1 := exec (Login.handleLogin (Rejected e)) w in
  let w2 := exec (Login.handleRegister (Rejected e)) w in
  (storage w1 = storage w /\ user w1 = user w /\
   view w1 = Login.mkState false (Login.loginData (view w)) (Login.registerData (view w)) /\
   requests (added w w1) = [login_request (Login.loginData (view w))] /\
   headers (login_request (Login.loginData (view w))) !! "Authorization" = None /\
   (Navigate "/" ∉ added w w1) /\
   last (trace w1)
   = Some (Toast Error (or_else (error_data e "message") (JStr "Login failed")) None)) /\
  (storage w2 = storage w /\ user w2 = user w /\
   view w2 = Login.mkState false (Login.loginData (view w)) (Login.registerData (view w)) /\
   requests (added w w2) = [register_request (Login.registerData (view w))] /\
   headers (register_request (Login.registerData (view w))) !! "Authorization" = None /\
   (Navigate "/" ∉ added w w2) /\
   last (trace w2)
   = Some (Toast Error (or_else (error_data e "message") (JStr "Registration failed"))
                 None)).
Proof.
  cbv zeta. destruct w as [st u s t].
  unfold added, Login.handleLogin, Login.handleRegister, Login.setLoading.
  eval_handler. rewrite !drop_app_length.
  assert (Hlast : forall (xs : list Event) a b c d, last (xs ++ [a; b; c; d]) = Some d).
  { intros xs a b c d. replace (xs ++ [a; b; c; d]) with ((xs ++ [a; b; c]) ++ [d])
      by (rewrite <- app_assoc; reflexivity).
    apply last_snoc. }
  split; (split; [reflexivity | ]; split; [reflexivity | ]; split; [reflexivity | ];
          split; [reflexivity | ]; split; [reflexivity | ]; split; [ | apply Hlast ]);
    intros Hin; repeat (apply elem_of_cons in Hin as [Hin | Hin]; [discriminate | ]);
    apply elem_of_nil in Hin; exact Hin.
Qed.
